(** * GLSLprimer: a shallow embedding of the render loop of [GLSLprimer.c]

    The program is a thin layer over GLFW and OpenGL.  The model keeps the
    C code's shape: [main]'s locals are a record, every library call is an
    event appended to a trace, and what the libraries answer (window size,
    key states, uniform locations, ...) is supplied by an explicit
    environment and a per-frame script. *)

From Stdlib Require Import ZArith List String Ascii Bool Lia.
From Stdlib Require Import Floats.SpecFloat.
From stdpp Require Import base list.
Import ListNotations.

Local Open Scope Z_scope.
Local Open Scope list_scope.

(** ** IEEE-754 scalars

    [GLfloat] is binary32 and C's [double] is binary64.  Both are
    [spec_float] values operated on with the Standard Library's
    parameterised round-to-nearest-even operations. *)

Module Float32.
Definition prec : Z := 24.
Definition emax : Z := 128.
Definition t : Type := spec_float.

Definition mul : t -> t -> t := SFmul prec emax.
Definition div : t -> t -> t := SFdiv prec emax.

(** C's conversion [(float)i] of an integer. *)
Definition of_int (i : Z) : t := binary_normalize prec emax i 0 false.

(** The literal [m * 2^e], rounded to binary32. *)
Definition lit (m e : Z) : t := binary_normalize prec emax m e false.

(** C's conversion [(float)d] of a binary64 value. *)
Definition of_double (d : spec_float) : t :=
  match d with
  | S754_finite s m e => binary_round prec emax s m e
  | _ => d
  end.

Definition is_zero (x : t) : bool :=
  match x with S754_zero _ => true | _ => false end.

Definition is_finite (x : t) : bool :=
  match x with S754_zero _ | S754_finite _ _ _ => true | _ => false end.
End Float32.

Module Float64.
Definition prec : Z := 53.
Definition emax : Z := 1024.
Definition t : Type := spec_float.

Definition mul : t -> t -> t := SFmul prec emax.
Definition div : t -> t -> t := SFdiv prec emax.
Definition of_int (i : Z) : t := binary_normalize prec emax i 0 false.

(** [M_PI] of <math.h>: 0x400921FB54442D18. *)
Definition M_PI : t := S754_finite false 7074237752028440 (-51).
End Float64.

Definition GLfloat : Type := Float32.t.
Definition double : Type := Float64.t.
Definition GLint : Type := Z.
Definition GLuint : Type := Z.

#[global] Instance GLfloat_inhabited : Inhabited GLfloat := populate (S754_zero false).

(** A [GLfloat[16]] array, column-major when read as a 4x4 matrix. *)
Definition mat4 : Type := list GLfloat.

(** ** The library calls [GLSLprimer.c] makes

    Calls into GLFW, OpenGL and the framework's helper files ([tnm084.c],
    [tgaloader.c], [triangleSoup.c], [pollRotator.c]); none of these is
    among the sources, so a call is an event of the trace and what it
    returns comes from the environment. *)

Inductive GLenum : Type :=
| GL_TEXTURE_2D | GL_DEPTH_TEST | GL_CULL_FACE | GL_BACK
| GL_VENDOR | GL_RENDERER | GL_VERSION
| GL_COLOR_BUFFER_BIT | GL_DEPTH_BUFFER_BIT.

Inductive GLFWhint : Type :=
| GLFW_CONTEXT_VERSION_MAJOR | GLFW_CONTEXT_VERSION_MINOR
| GLFW_OPENGL_FORWARD_COMPAT | GLFW_OPENGL_PROFILE.

Inductive GLFWkey : Type := GLFW_KEY_SPACE | GLFW_KEY_ESCAPE.

Inductive printf_arg : Type :=
| ArgString (s : string)
| ArgInt (i : Z).

Inductive call : Type :=
| InitRotatorMouse
| GlfwInit
| Printf (format : string) (args : list printf_arg)
| GlfwGetPrimaryMonitor
| GlfwGetVideoMode
| GlfwWindowHint (hint : GLFWhint) (value : Z)
| GlfwCreateWindow (width height : Z) (title : string)
| GlfwTerminate
| GlfwMakeContextCurrent
| GlfwSwapInterval (interval : Z)
| LoadExtensions
| GlGetString (name : GLenum)
| SoupInit
| SoupCreateSphere (radius : double) (segments : Z)
| SoupReadOBJ (filename : string)
| SoupPrintInfo
| GlEnable (cap : GLenum)
| CreateTexture (filename : string)
| CreateShader (vertexfile fragmentfile : string)
| GlGetUniformLocation (program : GLuint) (name : string)
| GlfwWindowShouldClose
| ComputeFPS
| GlClearColor (r g b a : GLfloat)
| GlClear (mask : list GLenum)
| GlfwGetWindowSize
| GlViewport (x y width height : Z)
| PollRotatorMouse
| GlUseProgram (program : GLuint)
| GlUniform1i (location : GLint) (v : Z)
| GlfwGetTime
| GlUniform1f (location : GLint) (v : GLfloat)
| GlUniformMatrix4fv (location : GLint) (count : Z) (transpose : bool) (value : mat4)
| GlCullFace (mode : GLenum)
| SoupRender
| GlfwSwapBuffers
| GlfwPollEvents
| GlfwGetKey (key : GLFWkey)
| GlDeleteProgram (program : GLuint)
| GlfwSetWindowShouldClose (value : bool)
| GlfwDestroyWindow.

(** ** What the window reports during one iteration of the render loop *)

Record rotatorMouse : Type := { phi : double; theta : double }.

Record FrameInput : Type := {
  fi_fps : double;               (* computeFPS(window) *)
  fi_size : Z * Z;               (* glfwGetWindowSize: (width, height) *)
  fi_rotator : rotatorMouse;     (* rotator after pollRotatorMouse *)
  fi_time : double;              (* glfwGetTime() *)
  fi_close_request : bool;       (* glfwPollEvents saw the close button *)
  fi_space : Z;                  (* glfwGetKey(window, GLFW_KEY_SPACE) *)
  fi_escape : Z;                 (* glfwGetKey(window, GLFW_KEY_ESCAPE) *)
  fi_reload : GLuint             (* what createShader returns in this frame *)
}.

(** ** setupViewport *)

(** The two operands of the only division in [setupViewport],
    [P[5]*height/width]: C converts the [int]s to [float] and evaluates
    left to right. *)
Definition aspect_dividend (P : mat4) (height : Z) : GLfloat :=
  Float32.mul (P !!! 5%nat) (Float32.of_int height).

Definition aspect_divisor (width : Z) : GLfloat := Float32.of_int width.

(** [P] is the caller's [GLfloat[16]]: the result is the array after the
    call, paired with the calls made.  The program only ever passes
    sixteen entries; on a shorter list the model reads [+0.0] and writes
    nothing. *)
Definition setupViewport (window : FrameInput) (P : mat4) : mat4 * list call :=
  (* glfwGetWindowSize( window, &width, &height ) *)
  let width := (fi_size window).1 in
  let height := (fi_size window).2 in
  (* P[0] = P[5]*height/width *)
  let P := <[0%nat := Float32.div (aspect_dividend P height) (aspect_divisor width)]> P in
  (P, [GlfwGetWindowSize; GlViewport 0 0 width height]).

(** ** [main]'s locals and the monad the program runs in *)

(** The locals of [main] that the render loop reads or writes.  The last
    field is not a C local: it is the close flag GLFW keeps for [window],
    read by [glfwWindowShouldClose] and written by
    [glfwSetWindowShouldClose] and by [glfwPollEvents]. *)
Record Locals : Type := {
  programObject : GLuint;
  location_time : GLint;
  location_MV : GLint;
  location_P : GLint;
  location_tex : GLint;
  time : GLfloat;
  fps : double;
  rotator : rotatorMouse;
  MV : mat4;
  R1 : mat4;
  R2 : mat4;
  P : mat4;
  should_close : bool
}.

Definition set_programObject (v : GLuint) (s : Locals) : Locals :=
  {| programObject := v; location_time := location_time s; location_MV := location_MV s;
     location_P := location_P s; location_tex := location_tex s; time := time s;
     fps := fps s; rotator := rotator s; MV := MV s; R1 := R1 s; R2 := R2 s; P := P s;
     should_close := should_close s |}.

Definition set_location_time (v : GLint) (s : Locals) : Locals :=
  {| programObject := programObject s; location_time := v; location_MV := location_MV s;
     location_P := location_P s; location_tex := location_tex s; time := time s;
     fps := fps s; rotator := rotator s; MV := MV s; R1 := R1 s; R2 := R2 s; P := P s;
     should_close := should_close s |}.

Definition set_location_MV (v : GLint) (s : Locals) : Locals :=
  {| programObject := programObject s; location_time := location_time s; location_MV := v;
     location_P := location_P s; location_tex := location_tex s; time := time s;
     fps := fps s; rotator := rotator s; MV := MV s; R1 := R1 s; R2 := R2 s; P := P s;
     should_close := should_close s |}.

Definition set_location_P (v : GLint) (s : Locals) : Locals :=
  {| programObject := programObject s; location_time := location_time s;
     location_MV := location_MV s; location_P := v; location_tex := location_tex s;
     time := time s; fps := fps s; rotator := rotator s; MV := MV s; R1 := R1 s;
     R2 := R2 s; P := P s; should_close := should_close s |}.

Definition set_location_tex (v : GLint) (s : Locals) : Locals :=
  {| programObject := programObject s; location_time := location_time s;
     location_MV := location_MV s; location_P := location_P s; location_tex := v;
     time := time s; fps := fps s; rotator := rotator s; MV := MV s; R1 := R1 s;
     R2 := R2 s; P := P s; should_close := should_close s |}.

Definition set_time (v : GLfloat) (s : Locals) : Locals :=
  {| programObject := programObject s; location_time := location_time s;
     location_MV := location_MV s; location_P := location_P s;
     location_tex := location_tex s; time := v; fps := fps s; rotator := rotator s;
     MV := MV s; R1 := R1 s; R2 := R2 s; P := P s; should_close := should_close s |}.

Definition set_fps (v : double) (s : Locals) : Locals :=
  {| programObject := programObject s; location_time := location_time s;
     location_MV := location_MV s; location_P := location_P s;
     location_tex := location_tex s; time := time s; fps := v; rotator := rotator s;
     MV := MV s; R1 := R1 s; R2 := R2 s; P := P s; should_close := should_close s |}.

Definition set_rotator (v : rotatorMouse) (s : Locals) : Locals :=
  {| programObject := programObject s; location_time := location_time s;
     location_MV := location_MV s; location_P := location_P s;
     location_tex := location_tex s; time := time s; fps := fps s; rotator := v;
     MV := MV s; R1 := R1 s; R2 := R2 s; P := P s; should_close := should_close s |}.

Definition set_MV (v : mat4) (s : Locals) : Locals :=
  {| programObject := programObject s; location_time := location_time s;
     location_MV := location_MV s; location_P := location_P s;
     location_tex := location_tex s; time := time s; fps := fps s; rotator := rotator s;
     MV := v; R1 := R1 s; R2 := R2 s; P := P s; should_close := should_close s |}.

Definition set_R1 (v : mat4) (s : Locals) : Locals :=
  {| programObject := programObject s; location_time := location_time s;
     location_MV := location_MV s; location_P := location_P s;
     location_tex := location_tex s; time := time s; fps := fps s; rotator := rotator s;
     MV := MV s; R1 := v; R2 := R2 s; P := P s; should_close := should_close s |}.

Definition set_R2 (v : mat4) (s : Locals) : Locals :=
  {| programObject := programObject s; location_time := location_time s;
     location_MV := location_MV s; location_P := location_P s;
     location_tex := location_tex s; time := time s; fps := fps s; rotator := rotator s;
     MV := MV s; R1 := R1 s; R2 := v; P := P s; should_close := should_close s |}.

Definition set_P (v : mat4) (s : Locals) : Locals :=
  {| programObject := programObject s; location_time := location_time s;
     location_MV := location_MV s; location_P := location_P s;
     location_tex := location_tex s; time := time s; fps := fps s; rotator := rotator s;
     MV := MV s; R1 := R1 s; R2 := R2 s; P := v; should_close := should_close s |}.

Definition set_should_close (v : bool) (s : Locals) : Locals :=
  {| programObject := programObject s; location_time := location_time s;
     location_MV := location_MV s; location_P := location_P s;
     location_tex := location_tex s; time := time s; fps := fps s; rotator := rotator s;
     MV := MV s; R1 := R1 s; R2 := R2 s; P := P s; should_close := v |}.

(** A computation reads and writes the locals and reports the library
    calls it made, in order. *)
Definition M (A : Type) : Type := Locals -> A * Locals * list call.

Definition value {A} (r : A * Locals * list call) : A := r.1.1.
Definition final {A} (r : A * Locals * list call) : Locals := r.1.2.
Definition calls {A} (r : A * Locals * list call) : list call := r.2.

#[global] Instance M_ret : MRet M := fun A a s => (a, s, []).

#[global] Instance M_bind : MBind M := fun A B f m s =>
  let '(a, s1, t1) := m s in
  let '(b, s2, t2) := f a s1 in
  (b, s2, t1 ++ t2).

Definition emit (c : call) : M unit := fun s => (tt, s, [c]).
Definition emits (cs : list call) : M unit := fun s => (tt, s, cs).
Definition get {A} (field : Locals -> A) : M A := fun s => (field s, s, []).
Definition modify (f : Locals -> Locals) : M unit := fun s => (tt, f s, []).
Definition skip : M unit := mret tt.

(** ** Constants of the program *)

Definition LF : string := String (ascii_of_nat 10) EmptyString.

Inductive platform : Type := Apple | OtherPlatform.

Definition PATH (pf : platform) : string :=
  match pf with Apple => "../../../" | OtherPlatform => EmptyString end.

Definition TEXTUREFILENAME (pf : platform) : string :=
  String.append (PATH pf) "../textures/earth2048.tga".
Definition MESHFILENAME (pf : platform) : string :=
  String.append (PATH pf) "../meshes/trex.obj".
Definition VERTEXSHADERFILENAME (pf : platform) : string :=
  String.append (PATH pf) "../shaders/vertexshader.glsl".
Definition FRAGMENTSHADERFILENAME (pf : platform) : string :=
  String.append (PATH pf) "../shaders/fragmentshader.glsl".

Definition GL_TRUE : Z := 1.
Definition GLFW_OPENGL_CORE_PROFILE : Z := 0x00032001.

Definition f32_zero : GLfloat := S754_zero false.
Definition f32_one : GLfloat := Float32.of_int 1.

Definition Tz : mat4 :=
  [ f32_one;  f32_zero; f32_zero;            f32_zero;     (* First column *)
    f32_zero; f32_one;  f32_zero;            f32_zero;     (* Second column *)
    f32_zero; f32_zero; f32_one;             f32_zero;     (* Third column *)
    f32_zero; f32_zero; Float32.of_int (-5); f32_one ].    (* Fourth column *)

Definition P_init : mat4 :=
  [ Float32.of_int 4; f32_zero;         f32_zero;              f32_zero;
    f32_zero;         Float32.of_int 4; f32_zero;              f32_zero;
    f32_zero;         f32_zero;         Float32.lit (-5) (-1); Float32.of_int (-1);
    f32_zero;         f32_zero;         Float32.lit (-21) (-1); f32_zero ].

(** The literal [0.3f]: the binary32 nearest to 3/10. *)
Definition f32_0_3 : GLfloat := Float32.div (Float32.of_int 3) (Float32.of_int 10).

(** [x * M_PI/180.0], evaluated in binary64 from left to right. *)
Definition deg2rad (x : double) : double :=
  Float64.div (Float64.mul x Float64.M_PI) (Float64.of_int 180).

(** ** The matrix helpers of [tnm084.h] *)

(** Modelled from the spec: [tnm084.c], which defines [mat4roty],
    [mat4rotx] and [mat4mult], is not among the sources.  The spec lists
    the matrix primitives as library calls with conventional signatures
    (rotation about an axis by an angle, product of two 4x4 matrices):
    each fills all sixteen entries of its output array from its inputs
    alone, and [mat4mult M1 M2] is the product [M1 x M2].  The angle is
    the [double] value of the argument expression; its conversion to the
    helper's parameter type is the helper's. *)
Class MatrixLib : Type := {
  mat4roty : double -> mat4;
  mat4rotx : double -> mat4;
  mat4mult : mat4 -> mat4 -> mat4
}.

(** Modelled from the spec: [pollRotator.c] is not among the sources;
    [initRotatorMouse] initialises the state to zero. *)
Definition initRotatorMouse : rotatorMouse :=
  {| phi := S754_zero false; theta := S754_zero false |}.

(** ** What the libraries answer during start-up *)

Record Env : Type := {
  env_platform : platform;
  env_glfwInit : bool;                       (* glfwInit() succeeded *)
  env_vidmode : Z * Z;                       (* vidmode->width, vidmode->height *)
  env_window : bool;                         (* glfwCreateWindow returned non-NULL *)
  env_glGetString : GLenum -> string;
  env_createShader : GLuint;                 (* the first createShader result *)
  env_uniform : GLuint -> string -> GLint    (* glGetUniformLocation *)
}.

Section Program.
Context {matlib : MatrixLib}.
Variable env : Env.

Definition createShader_call : call :=
  CreateShader (VERTEXSHADERFILENAME (env_platform env))
               (FRAGMENTSHADERFILENAME (env_platform env)).

(** One iteration of the [while] loop of [main] (lines 202-274). *)
Definition frame (window : FrameInput) : M unit :=
  emit ComputeFPS;;
  modify (set_fps (fi_fps window));;
  emit (GlClearColor f32_0_3 f32_0_3 f32_0_3 f32_zero);;
  emit (GlClear [GL_COLOR_BUFFER_BIT; GL_DEPTH_BUFFER_BIT]);;
  (* setupViewport(window, P) *)
  P0 ← get P;
  emits (setupViewport window P0).2;;
  modify (set_P (setupViewport window P0).1);;
  (* pollRotatorMouse(window, &rotator) *)
  emit PollRotatorMouse;;
  modify (set_rotator (fi_rotator window));;
  po ← get programObject;
  emit (GlUseProgram po);;
  loc ← get location_tex;
  (if negb (loc =? -1) then emit (GlUniform1i loc 0) else skip);;
  loc ← get location_time;
  (if negb (loc =? -1) then
     emit GlfwGetTime;;
     modify (set_time (Float32.of_double (fi_time window)));;
     t ← get time;
     emit (GlUniform1f loc t)
   else skip);;
  (* Modify MV according to user input *)
  r ← get rotator;
  modify (set_R1 (mat4roty (deg2rad (phi r))));;
  modify (set_R2 (mat4rotx (deg2rad (theta r))));;
  m2 ← get R2; m1 ← get R1;
  modify (set_MV (mat4mult m2 m1));;
  mv ← get MV;
  modify (set_MV (mat4mult Tz mv));;
  loc ← get location_MV;
  mv ← get MV;
  (if negb (loc =? -1) then emit (GlUniformMatrix4fv loc 1 false mv) else skip);;
  loc ← get location_P;
  p ← get P;
  (if negb (loc =? -1) then emit (GlUniformMatrix4fv loc 1 false p) else skip);;
  emit (GlEnable GL_DEPTH_TEST);;
  emit (GlEnable GL_CULL_FACE);;
  emit (GlCullFace GL_BACK);;
  emit SoupRender;;
  emit (GlUseProgram 0);;
  emit GlfwSwapBuffers;;
  emit GlfwPollEvents;;
  modify (fun s => set_should_close (should_close s || fi_close_request window) s);;
  emit (GlfwGetKey GLFW_KEY_SPACE);;
  (if negb (fi_space window =? 0) then
     po ← get programObject;
     emit (GlDeleteProgram po);;
     emit createShader_call;;
     modify (set_programObject (fi_reload window))
   else skip);;
  emit (GlfwGetKey GLFW_KEY_ESCAPE);;
  (if negb (fi_escape window =? 0) then
     emit (GlfwSetWindowShouldClose true);;
     modify (set_should_close true)
   else skip).

(** [while (!glfwWindowShouldClose(window)) { ... }].  Each iteration
    consumes one entry of the script.  The result is [true] when the
    loop was left, [false] when the script ran out with the loop still
    running. *)
Fixpoint render_loop (script : list FrameInput) : M bool :=
  emit GlfwWindowShouldClose;;
  closing ← get should_close;
  if (closing : bool) then mret true
  else match script with
       | [] => mret false
       | window :: script' => frame window;; render_loop script'
       end.

(** [main]: [Some status] is the value returned by [main], [None] means
    that the render loop is still running when the script ends.  The
    locals [main] starts from are the argument of the computation. *)
Definition main (script : list FrameInput) : M (option Z) :=
  modify (set_fps (S754_zero false));;
  emit InitRotatorMouse;;
  modify (set_rotator initRotatorMouse);;
  emit GlfwInit;;
  if negb (env_glfwInit env) then
    emit (Printf (String.append "Failed to initialise GLFW. Exiting." LF) []);;
    mret (Some (-1))
  else
    emit GlfwGetPrimaryMonitor;;
    emit GlfwGetVideoMode;;
    emit (GlfwWindowHint GLFW_CONTEXT_VERSION_MAJOR 3);;
    emit (GlfwWindowHint GLFW_CONTEXT_VERSION_MINOR 3);;
    emit (GlfwWindowHint GLFW_OPENGL_FORWARD_COMPAT GL_TRUE);;
    emit (GlfwWindowHint GLFW_OPENGL_PROFILE GLFW_OPENGL_CORE_PROFILE);;
    emit (GlfwCreateWindow ((env_vidmode env).1 ÷ 2) ((env_vidmode env).2 ÷ 2) "Hello GLSL");;
    modify (set_should_close false);;
    if negb (env_window env) then
      emit (Printf (String.append "Failed to open GLFW window. Exiting." LF) []);;
      emit GlfwTerminate;;
      mret (Some (-1))
    else
      emit GlfwMakeContextCurrent;;
      emit (GlfwSwapInterval 0);;
      emit LoadExtensions;;
      emit (GlGetString GL_VENDOR);;
      emit (Printf (String.append "GL vendor:       %s" LF)
                   [ArgString (env_glGetString env GL_VENDOR)]);;
      emit (GlGetString GL_RENDERER);;
      emit (Printf (String.append "GL renderer:     %s" LF)
                   [ArgString (env_glGetString env GL_RENDERER)]);;
      emit (GlGetString GL_VERSION);;
      emit (Printf (String.append "GL version:      %s" LF)
                   [ArgString (env_glGetString env GL_VERSION)]);;
      emit (Printf (String.append "Desktop size:    %d x %d pixels" LF)
                   [ArgInt (env_vidmode env).1; ArgInt (env_vidmode env).2]);;
      modify (set_P P_init);;
      (* Create geometry for rendering *)
      emit SoupInit;;
      emit (SoupCreateSphere (Float64.of_int 1) 50);;
      emit SoupPrintInfo;;
      emit (GlEnable GL_TEXTURE_2D);;
      emit (CreateTexture (TEXTUREFILENAME (env_platform env)));;
      emit createShader_call;;
      modify (set_programObject (env_createShader env));;
      po ← get programObject;
      emit (GlGetUniformLocation po "MV");;
      modify (set_location_MV (env_uniform env po "MV"));;
      po ← get programObject;
      emit (GlGetUniformLocation po "P");;
      modify (set_location_P (env_uniform env po "P"));;
      po ← get programObject;
      emit (GlGetUniformLocation po "time");;
      modify (set_location_time (env_uniform env po "time"));;
      po ← get programObject;
      emit (GlGetUniformLocation po "tex");;
      modify (set_location_tex (env_uniform env po "tex"));;
      ended ← render_loop script;
      if (ended : bool) then
        emit GlfwDestroyWindow;;
        emit GlfwTerminate;;
        mret (Some 0)
      else mret None.
End Program.

(** ** Observations on call traces *)

Definition count (p : call -> bool) (l : list call) : nat :=
  length (List.filter p l).

Definition is_glUniform (c : call) : bool :=
  match c with
  | GlUniform1i _ _ | GlUniform1f _ _ | GlUniformMatrix4fv _ _ _ _ => true
  | _ => false
  end.

Definition is_GlfwGetTime (c : call) : bool :=
  match c with GlfwGetTime => true | _ => false end.

Definition is_Printf (c : call) : bool :=
  match c with Printf _ _ => true | _ => false end.

Definition is_GlDeleteProgram (c : call) : bool :=
  match c with GlDeleteProgram _ => true | _ => false end.

Definition is_CreateShader (c : call) : bool :=
  match c with CreateShader _ _ => true | _ => false end.

Definition is_GlGetUniformLocation (c : call) : bool :=
  match c with GlGetUniformLocation _ _ => true | _ => false end.

Definition is_GlfwWindowShouldClose (c : call) : bool :=
  match c with GlfwWindowShouldClose => true | _ => false end.

Definition is_SoupReadOBJ (c : call) : bool :=
  match c with SoupReadOBJ _ => true | _ => false end.

Definition is_PollRotatorMouse (c : call) : bool :=
  match c with PollRotatorMouse => true | _ => false end.

Definition is_GlViewport (c : call) : bool :=
  match c with GlViewport _ _ _ _ => true | _ => false end.

(** Position of the first call satisfying [p]. *)
Fixpoint first_index (p : call -> bool) (l : list call) : option nat :=
  match l with
  | [] => None
  | c :: l' => if p c then Some 0%nat else option_map S (first_index p l')
  end.

(** [precedes p q l]: a [p] call occurs in [l], and no [q] call occurs
    before the first of them. *)
Definition precedes (p q : call -> bool) (l : list call) : bool :=
  match first_index p l, first_index q l with
  | Some i, Some j => (i <? j)%nat
  | Some _, None => true
  | None, _ => false
  end.

(** The frame asks for the loop to end: ESC is down, or the close button
    was used. *)
Definition requests_exit (window : FrameInput) : bool :=
  negb (fi_escape window =? 0) || fi_close_request window.

Definition space_down (window : FrameInput) : bool :=
  negb (fi_space window =? 0).

(** The frames of a script the render loop executes, given the close flag
    at loop entry: it stops before the first frame that follows a request
    to exit. *)
Fixpoint frames_run (closing : bool) (script : list FrameInput) : list FrameInput :=
  if closing then []
  else match script with
       | [] => []
       | window :: script' => window :: frames_run (requests_exit window) script'
       end.

(** Press edges of SPACE as the spec words them: frames where the key is
    down and was up in the frame before. *)
Fixpoint press_edges (was_down : bool) (script : list FrameInput) : nat :=
  match script with
  | [] => 0%nat
  | window :: script' =>
      ((if space_down window && negb was_down then 1 else 0)
       + press_edges (space_down window) script')%nat
  end.

(** The homogeneous translation by [(x, y, z)], column-major. *)
Definition Translation (x y z : GLfloat) : mat4 :=
  [ f32_one;  f32_zero; f32_zero; f32_zero;
    f32_zero; f32_one;  f32_zero; f32_zero;
    f32_zero; f32_zero; f32_one;  f32_zero;
    x;        y;        z;        f32_one ].

(** ** What [main] has done when it reaches the render loop *)

Section Startup.
Context {matlib : MatrixLib}.
Variable env : Env.

Definition startup_calls : list call :=
  [ InitRotatorMouse; GlfwInit; GlfwGetPrimaryMonitor; GlfwGetVideoMode;
    GlfwWindowHint GLFW_CONTEXT_VERSION_MAJOR 3;
    GlfwWindowHint GLFW_CONTEXT_VERSION_MINOR 3;
    GlfwWindowHint GLFW_OPENGL_FORWARD_COMPAT GL_TRUE;
    GlfwWindowHint GLFW_OPENGL_PROFILE GLFW_OPENGL_CORE_PROFILE;
    GlfwCreateWindow ((env_vidmode env).1 ÷ 2) ((env_vidmode env).2 ÷ 2) "Hello GLSL";
    GlfwMakeContextCurrent; GlfwSwapInterval 0; LoadExtensions;
    GlGetString GL_VENDOR;
    Printf (String.append "GL vendor:       %s" LF) [ArgString (env_glGetString env GL_VENDOR)];
    GlGetString GL_RENDERER;
    Printf (String.append "GL renderer:     %s" LF) [ArgString (env_glGetString env GL_RENDERER)];
    GlGetString GL_VERSION;
    Printf (String.append "GL version:      %s" LF) [ArgString (env_glGetString env GL_VERSION)];
    Printf (String.append "Desktop size:    %d x %d pixels" LF)
           [ArgInt (env_vidmode env).1; ArgInt (env_vidmode env).2];
    SoupInit; SoupCreateSphere (Float64.of_int 1) 50; SoupPrintInfo;
    GlEnable GL_TEXTURE_2D;
    CreateTexture (TEXTUREFILENAME (env_platform env));
    createShader_call env;
    GlGetUniformLocation (env_createShader env) "MV";
    GlGetUniformLocation (env_createShader env) "P";
    GlGetUniformLocation (env_createShader env) "time";
    GlGetUniformLocation (env_createShader env) "tex" ].

Definition startup_locals (s : Locals) : Locals :=
  {| programObject := env_createShader env;
     location_time := env_uniform env (env_createShader env) "time";
     location_MV := env_uniform env (env_createShader env) "MV";
     location_P := env_uniform env (env_createShader env) "P";
     location_tex := env_uniform env (env_createShader env) "tex";
     time := time s;
     fps := S754_zero false;
     rotator := initRotatorMouse;
     MV := MV s; R1 := R1 s; R2 := R2 s;
     P := P_init;
     should_close := false |}.

(** The Model-View matrix [frame] computes from the rotator. *)
Definition modelview (r : rotatorMouse) : mat4 :=
  mat4mult Tz (mat4mult (mat4rotx (deg2rad (theta r))) (mat4roty (deg2rad (phi r)))).
End Startup.

(** ** A stand-in for [tnm084.c], to run the model on concrete inputs *)

Module TestDouble.
Definition add : GLfloat -> GLfloat -> GLfloat := SFadd Float32.prec Float32.emax.
Definition opp : GLfloat -> GLfloat := SFopp.

Definition entry (m : mat4) (i : nat) : GLfloat := m !!! i.

(** Column-major product: [Mout[i+4j] = sum_k M1[i+4k] * M2[k+4j]]. *)
Definition product_entry (m1 m2 : mat4) (n : nat) : GLfloat :=
  let i := (n mod 4)%nat in
  let j := (n / 4)%nat in
  add (add (add (Float32.mul (entry m1 i) (entry m2 (4 * j)))
                (Float32.mul (entry m1 (i + 4)) (entry m2 (1 + 4 * j))))
           (Float32.mul (entry m1 (i + 8)) (entry m2 (2 + 4 * j))))
      (Float32.mul (entry m1 (i + 12)) (entry m2 (3 + 4 * j))).

Definition product (m1 m2 : mat4) : mat4 :=
  List.map (product_entry m1 m2) (seq 0 16).

(** First-order stand-ins for [cos] and [sin], exact at angle zero. *)
Definition cos1 (a : double) : GLfloat := f32_one.
Definition sin1 (a : double) : GLfloat := Float32.of_double a.

Definition roty (a : double) : mat4 :=
  [ cos1 a;   f32_zero; opp (sin1 a); f32_zero;
    f32_zero; f32_one;  f32_zero;     f32_zero;
    sin1 a;   f32_zero; cos1 a;       f32_zero;
    f32_zero; f32_zero; f32_zero;     f32_one ].

Definition rotx (a : double) : mat4 :=
  [ f32_one;  f32_zero;     f32_zero; f32_zero;
    f32_zero; cos1 a;       sin1 a;   f32_zero;
    f32_zero; opp (sin1 a); cos1 a;   f32_zero;
    f32_zero; f32_zero;     f32_zero; f32_one ].

Definition lib : MatrixLib :=
  {| mat4roty := roty; mat4rotx := rotx; mat4mult := product |}.

Definition env_ok : Env :=
  {| env_platform := OtherPlatform;
     env_glfwInit := true;
     env_vidmode := (1920, 1080);
     env_window := true;
     env_glGetString := fun _ => "mock"%string;
     env_createShader := 1;
     env_uniform := fun _ name =>
       if String.eqb name "MV" then 0
       else if String.eqb name "P" then 1
       else if String.eqb name "time" then 2
       else if String.eqb name "tex" then 3
       else -1 |}.

Definition env_no_glfw : Env :=
  {| env_platform := OtherPlatform;
     env_glfwInit := false;
     env_vidmode := (1920, 1080);
     env_window := true;
     env_glGetString := fun _ => "mock"%string;
     env_createShader := 1;
     env_uniform := fun _ _ => -1 |}.

Definition env_no_window : Env :=
  {| env_platform := OtherPlatform;
     env_glfwInit := true;
     env_vidmode := (1920, 1080);
     env_window := false;
     env_glGetString := fun _ => "mock"%string;
     env_createShader := 1;
     env_uniform := fun _ _ => -1 |}.

(** A shader program that declares none of the four uniforms. *)
Definition env_no_uniforms : Env :=
  {| env_platform := OtherPlatform;
     env_glfwInit := true;
     env_vidmode := (1920, 1080);
     env_window := true;
     env_glGetString := fun _ => "mock"%string;
     env_createShader := 1;
     env_uniform := fun _ _ => -1 |}.

(** Indeterminate initial contents of [main]'s locals. *)
Definition junk : Locals :=
  {| programObject := 77; location_time := 5; location_MV := 6; location_P := 7;
     location_tex := 8; time := Float32.of_int 9; fps := Float64.of_int 3;
     rotator := {| phi := Float64.of_int 1; theta := Float64.of_int 2 |};
     MV := []; R1 := []; R2 := []; P := []; should_close := true |}.

Definition still : rotatorMouse := {| phi := S754_zero false; theta := S754_zero false |}.

(** A quiet frame of an 800x400 window. *)
Definition idle : FrameInput :=
  {| fi_fps := Float64.of_int 60; fi_size := (800, 400); fi_rotator := still;
     fi_time := Float64.of_int 1; fi_close_request := false;
     fi_space := 0; fi_escape := 0; fi_reload := 2 |}.

(** SPACE is down during the frame. *)
Definition space_held (handle : GLuint) : FrameInput :=
  {| fi_fps := Float64.of_int 60; fi_size := (800, 400); fi_rotator := still;
     fi_time := Float64.of_int 1; fi_close_request := false;
     fi_space := 1; fi_escape := 0; fi_reload := handle |}.

(** ESC is down during the frame. *)
Definition escape_pressed : FrameInput :=
  {| fi_fps := Float64.of_int 60; fi_size := (800, 400); fi_rotator := still;
     fi_time := Float64.of_int 1; fi_close_request := false;
     fi_space := 0; fi_escape := 1; fi_reload := 2 |}.

(** The locals when the render loop is entered. *)
Definition at_loop : Locals := startup_locals env_ok junk.

(** The window is minimised: it reports a width of 0. *)
Definition minimised : FrameInput :=
  {| fi_fps := Float64.of_int 60; fi_size := (0, 400); fi_rotator := still;
     fi_time := Float64.of_int 1; fi_close_request := false;
     fi_space := 0; fi_escape := 0; fi_reload := 2 |}.

(** The window reports a height of 0 and a width of 800. *)
Definition flattened : FrameInput :=
  {| fi_fps := Float64.of_int 60; fi_size := (800, 0); fi_rotator := still;
     fi_time := Float64.of_int 1; fi_close_request := false;
     fi_space := 0; fi_escape := 0; fi_reload := 2 |}.

(** The window reports a size of 0 x 0. *)
Definition vanished : FrameInput :=
  {| fi_fps := Float64.of_int 60; fi_size := (0, 0); fi_rotator := still;
     fi_time := Float64.of_int 1; fi_close_request := false;
     fi_space := 0; fi_escape := 0; fi_reload := 2 |}.

(** A 640x480 window whose close button is used during the frame. *)
Definition close_clicked : FrameInput :=
  {| fi_fps := Float64.of_int 60; fi_size := (640, 480); fi_rotator := still;
     fi_time := Float64.of_int 2; fi_close_request := true;
     fi_space := 0; fi_escape := 0; fi_reload := 2 |}.

(** Other indeterminate initial contents of [main]'s locals. *)
Definition junk' : Locals :=
  {| programObject := 0; location_time := -1; location_MV := -1; location_P := -1;
     location_tex := -1; time := S754_nan; fps := S754_nan;
     rotator := {| phi := S754_nan; theta := S754_nan |};
     MV := P_init; R1 := Tz; R2 := Tz; P := Tz; should_close := false |}.
End TestDouble.


(** ** Further observations, for the properties of the whole run *)

Definition is_SoupRender (c : call) : bool :=
  match c with SoupRender => true | _ => false end.

Definition is_GlfwSwapBuffers (c : call) : bool :=
  match c with GlfwSwapBuffers => true | _ => false end.

Definition is_GlfwTerminate (c : call) : bool :=
  match c with GlfwTerminate => true | _ => false end.

Definition is_GlfwDestroyWindow (c : call) : bool :=
  match c with GlfwDestroyWindow => true | _ => false end.

Definition is_GlfwInit (c : call) : bool :=
  match c with GlfwInit => true | _ => false end.

Definition is_GlUseProgram (c : call) : bool :=
  match c with GlUseProgram _ => true | _ => false end.

Definition is_GlfwSetWindowShouldClose (c : call) : bool :=
  match c with GlfwSetWindowShouldClose _ => true | _ => false end.

(** The program object at the start of each of the given frames, when the
    first of them starts with [p]: a frame with SPACE down hands the
    handle returned by its [createShader] to the next one. *)
Fixpoint bound_programs (p : GLuint) (frames : list FrameInput) : list GLuint :=
  match frames with
  | [] => []
  | window :: frames' =>
      p :: bound_programs (if space_down window then fi_reload window else p) frames'
  end.

(** The handles [createShader] returned over the given frames, after a
    first handle [p]. *)
Definition created_programs (p : GLuint) (frames : list FrameInput) : list GLuint :=
  p :: List.map fi_reload (List.filter space_down frames).

(** Two sets of locals agree on what [main] has initialised when the
    render loop starts; [time], [fps], [rotator], [MV], [R1] and [R2] are
    left out. *)
Definition agree (s1 s2 : Locals) : Prop :=
  programObject s1 = programObject s2
  /\ location_time s1 = location_time s2
  /\ location_MV s1 = location_MV s2
  /\ location_P s1 = location_P s2
  /\ location_tex s1 = location_tex s2
  /\ P s1 = P s2
  /\ should_close s1 = should_close s2.

(** A binary32 value that is neither zero nor NaN, of sign [sx] and, when
    finite, of exponent at least [lo]. *)
Definition number_from (lo : Z) (sx : bool) (x : spec_float) : Prop :=
  match x with
  | S754_finite s _ e => s = sx /\ lo <= e
  | S754_infinity s => s = sx
  | _ => False
  end.

(** * Properties *)

Ltac unfold_monad :=
  unfold mbind, M_bind, mret, M_ret, emit, emits, get, modify, skip, value, final, calls.

(** Runs the monadic code of a frame on locals given field by field,
    leaving the scalar arithmetic and the matrix helpers folded. *)
Ltac run :=
  cbv beta iota zeta delta
    [frame modelview requests_exit
     mbind M_bind mret M_ret emit emits get modify skip value final calls
     fst snd app negb orb setupViewport
     set_programObject set_time set_fps set_rotator set_MV set_R1 set_R2 set_P
     set_should_close
     programObject location_time location_MV location_P location_tex
     time fps rotator MV R1 R2 P should_close].

Ltac run_frame window :=
  run;
  match goal with |- context [?l =? -1] => destruct (l =? -1) end; run;
  match goal with |- context [?l =? -1] => destruct (l =? -1) end; run;
  match goal with |- context [?l =? -1] => destruct (l =? -1) end; run;
  match goal with |- context [?l =? -1] => destruct (l =? -1) end; run;
  destruct (fi_space window =? 0); run;
  destruct (fi_escape window =? 0); run.

Section FrameFacts.
Context {matlib : MatrixLib}.
Variable env : Env.

Lemma frame_calls window s :
  calls (frame env window s) =
    [ ComputeFPS;
      GlClearColor f32_0_3 f32_0_3 f32_0_3 f32_zero;
      GlClear [GL_COLOR_BUFFER_BIT; GL_DEPTH_BUFFER_BIT];
      GlfwGetWindowSize;
      GlViewport 0 0 (fi_size window).1 (fi_size window).2;
      PollRotatorMouse;
      GlUseProgram (programObject s) ]
    ++ (if location_tex s =? -1 then [] else [GlUniform1i (location_tex s) 0])
    ++ (if location_time s =? -1 then []
        else [GlfwGetTime;
              GlUniform1f (location_time s) (Float32.of_double (fi_time window))])
    ++ (if location_MV s =? -1 then []
        else [GlUniformMatrix4fv (location_MV s) 1 false (modelview (fi_rotator window))])
    ++ (if location_P s =? -1 then []
        else [GlUniformMatrix4fv (location_P s) 1 false (setupViewport window (P s)).1])
    ++ [ GlEnable GL_DEPTH_TEST; GlEnable GL_CULL_FACE; GlCullFace GL_BACK;
         SoupRender; GlUseProgram 0; GlfwSwapBuffers; GlfwPollEvents;
         GlfwGetKey GLFW_KEY_SPACE ]
    ++ (if fi_space window =? 0 then []
        else [GlDeleteProgram (programObject s); createShader_call env])
    ++ [ GlfwGetKey GLFW_KEY_ESCAPE ]
    ++ (if fi_escape window =? 0 then [] else [GlfwSetWindowShouldClose true]).
Proof.
  destruct s; run_frame window; reflexivity.
Qed.

Lemma frame_final window s :
  final (frame env window s) =
    {| programObject := if fi_space window =? 0 then programObject s else fi_reload window;
       location_time := location_time s;
       location_MV := location_MV s;
       location_P := location_P s;
       location_tex := location_tex s;
       time := if location_time s =? -1 then time s
               else Float32.of_double (fi_time window);
       fps := fi_fps window;
       rotator := fi_rotator window;
       MV := modelview (fi_rotator window);
       R1 := mat4roty (deg2rad (phi (fi_rotator window)));
       R2 := mat4rotx (deg2rad (theta (fi_rotator window)));
       P := (setupViewport window (P s)).1;
       should_close := should_close s || requests_exit window |}.
Proof.
  destruct s as [? ? ? ? ? ? ? ? ? ? ? ? closing];
    run_frame window; destruct closing, (fi_close_request window); reflexivity.
Qed.
End FrameFacts.

Lemma value_run {A} (a : A) s t : value (a, s, t) = a.
Proof. reflexivity. Qed.

Lemma final_run {A} (a : A) s t : final (a, s, t) = s.
Proof. reflexivity. Qed.

Lemma calls_run {A} (a : A) s t : calls (a, s, t) = t.
Proof. reflexivity. Qed.

Section LoopFacts.
Context {matlib : MatrixLib}.
Variable env : Env.

Lemma render_loop_closing script s :
  should_close s = true ->
  render_loop env script s = (true, s, [GlfwWindowShouldClose]).
Proof.
  intros E. destruct script; cbn [render_loop]; unfold_monad;
    cbv beta iota zeta; rewrite E; reflexivity.
Qed.

Lemma render_loop_nil s :
  should_close s = false ->
  render_loop env [] s = (false, s, [GlfwWindowShouldClose]).
Proof.
  intros E. cbn [render_loop]; unfold_monad; cbv beta iota zeta.
  rewrite E. reflexivity.
Qed.

Lemma render_loop_cons window script s :
  should_close s = false ->
  render_loop env (window :: script) s =
    (value (render_loop env script (final (frame env window s))),
     final (render_loop env script (final (frame env window s))),
     GlfwWindowShouldClose
       :: calls (frame env window s)
       ++ calls (render_loop env script (final (frame env window s)))).
Proof.
  intros E. cbn [render_loop]; unfold_monad; cbv beta iota zeta.
  rewrite E.
  destruct (frame env window s) as [[u s1] t1]. cbn [fst snd app].
  destruct (render_loop env script s1) as [[b s2] t2]. reflexivity.
Qed.

Lemma frame_should_close window s :
  should_close (final (frame env window s)) = should_close s || requests_exit window.
Proof. rewrite frame_final. reflexivity. Qed.

(** The loop is left exactly when the close flag is already set or some
    frame of the script asks to exit. *)
Lemma render_loop_value script : forall s,
  value (render_loop env script s) = should_close s || existsb requests_exit script.
Proof.
  induction script as [|window script IH]; intros s;
    destruct (should_close s) eqn:E.
  - rewrite render_loop_closing by assumption. reflexivity.
  - rewrite render_loop_nil by assumption. reflexivity.
  - rewrite render_loop_closing by assumption. reflexivity.
  - rewrite render_loop_cons by assumption. rewrite value_run.
    rewrite IH, frame_should_close, E. reflexivity.
Qed.
End LoopFacts.

Section MainFacts.
Context {matlib : MatrixLib}.
Variable env : Env.

Ltac run_main :=
  cbv beta iota zeta delta
    [main mbind M_bind mret M_ret emit emits get modify skip value final calls
     fst snd app negb startup_locals startup_calls
     set_programObject set_location_time set_location_MV set_location_P
     set_location_tex set_fps set_rotator set_P set_should_close
     programObject location_time location_MV location_P location_tex
     time fps rotator MV R1 R2 P should_close].

Lemma main_no_glfw script s :
  env_glfwInit env = false ->
  main env script s =
    (Some (-1),
     set_rotator initRotatorMouse (set_fps (S754_zero false) s),
     [ InitRotatorMouse; GlfwInit;
       Printf (String.append "Failed to initialise GLFW. Exiting." LF) [] ]).
Proof. intros E. destruct s. run_main. rewrite E. reflexivity. Qed.

Lemma main_no_window script s :
  env_glfwInit env = true ->
  env_window env = false ->
  main env script s =
    (Some (-1),
     set_should_close false (set_rotator initRotatorMouse (set_fps (S754_zero false) s)),
     [ InitRotatorMouse; GlfwInit; GlfwGetPrimaryMonitor; GlfwGetVideoMode;
       GlfwWindowHint GLFW_CONTEXT_VERSION_MAJOR 3;
       GlfwWindowHint GLFW_CONTEXT_VERSION_MINOR 3;
       GlfwWindowHint GLFW_OPENGL_FORWARD_COMPAT GL_TRUE;
       GlfwWindowHint GLFW_OPENGL_PROFILE GLFW_OPENGL_CORE_PROFILE;
       GlfwCreateWindow ((env_vidmode env).1 ÷ 2) ((env_vidmode env).2 ÷ 2) "Hello GLSL";
       Printf (String.append "Failed to open GLFW window. Exiting." LF) [];
       GlfwTerminate ]).
Proof. intros E1 E2. destruct s. run_main. rewrite E1, E2. reflexivity. Qed.

Lemma main_running script s :
  env_glfwInit env = true ->
  env_window env = true ->
  main env script s =
    (if value (render_loop env script (startup_locals env s)) then Some 0 else None,
     final (render_loop env script (startup_locals env s)),
     startup_calls env
       ++ calls (render_loop env script (startup_locals env s))
       ++ (if value (render_loop env script (startup_locals env s))
           then [GlfwDestroyWindow; GlfwTerminate] else [])).
Proof.
  intros E1 E2. destruct s. run_main. rewrite E1, E2.
  cbv beta iota zeta delta [negb].
  match goal with |- context [render_loop env script ?s1] =>
    destruct (render_loop env script s1) as [[[] s2] t2]
  end; cbv beta iota zeta; rewrite ?app_nil_r; reflexivity.
Qed.
End MainFacts.

(** ** Rounding an integer to binary32 never yields zero unless it is zero *)

Section RoundingFacts.
Lemma shr_1_m mrs : 0 <= shr_m mrs -> shr_m (shr_1 mrs) = shr_m mrs / 2.
Proof.
  destruct mrs as [m r s]. cbn [shr_m]. intros Hm.
  rewrite <- Z.div2_div.
  destruct m as [|[p|p|]|p]; try reflexivity. lia.
Qed.

Lemma pow2_xO p : 2 ^ Z.pos p~0 = 2 ^ Z.pos p * 2 ^ Z.pos p.
Proof.
  replace (Z.pos p~0) with (Z.pos p + Z.pos p) by lia.
  apply Z.pow_add_r; lia.
Qed.

Lemma pow2_xI p : 2 ^ Z.pos p~1 = 2 * (2 ^ Z.pos p * 2 ^ Z.pos p).
Proof.
  replace (Z.pos p~1) with (Z.succ (Z.pos p + Z.pos p)) by lia.
  rewrite Z.pow_succ_r, Z.pow_add_r by lia. reflexivity.
Qed.

Lemma iter_shr_1_m p : forall mrs,
  0 <= shr_m mrs ->
  shr_m (SpecFloat.iter_pos shr_1 p mrs) = shr_m mrs / 2 ^ Z.pos p.
Proof.
  assert (Hpow : forall q, 0 < 2 ^ Z.pos q) by (intros; apply Z.pow_pos_nonneg; lia).
  induction p as [p IH|p IH|]; intros mrs Hm; cbn [SpecFloat.iter_pos].
  - assert (H1 : 0 <= shr_m (shr_1 mrs))
      by (rewrite shr_1_m by assumption; apply Z.div_pos; lia).
    assert (H2 : 0 <= shr_m (SpecFloat.iter_pos shr_1 p (shr_1 mrs)))
      by (rewrite IH by assumption; apply Z.div_pos; [assumption | apply Hpow]).
    rewrite IH, IH, shr_1_m by assumption.
    pose proof (Hpow p).
    rewrite !Zdiv_Zdiv by lia. rewrite pow2_xI. f_equal.
  - assert (H2 : 0 <= shr_m (SpecFloat.iter_pos shr_1 p mrs))
      by (rewrite IH by assumption; apply Z.div_pos; [assumption | apply Hpow]).
    rewrite IH, IH by assumption.
    pose proof (Hpow p).
    rewrite Zdiv_Zdiv by lia. rewrite pow2_xO. reflexivity.
  - rewrite shr_1_m by assumption. reflexivity.
Qed.

Lemma digits2_pos_lower m : 2 ^ (Z.pos (digits2_pos m) - 1) <= Z.pos m.
Proof.
  induction m as [m IH|m IH|]; cbn [digits2_pos].
  - rewrite Pos2Z.inj_succ.
    replace (Z.succ (Z.pos (digits2_pos m)) - 1)
      with (Z.succ (Z.pos (digits2_pos m) - 1)) by lia.
    rewrite Z.pow_succ_r by lia. lia.
  - rewrite Pos2Z.inj_succ.
    replace (Z.succ (Z.pos (digits2_pos m)) - 1)
      with (Z.succ (Z.pos (digits2_pos m) - 1)) by lia.
    rewrite Z.pow_succ_r by lia. lia.
  - reflexivity.
Qed.

Lemma fexp32 e : fexp Float32.prec Float32.emax e = Z.max (e - 24) (-149).
Proof. reflexivity. Qed.

(** Shifting a positive mantissa to its binary32 exponent keeps it
    positive, as long as the exponent is not below the smallest one. *)
Lemma shr_fexp_positive m e l :
  -149 <= e ->
  0 < shr_m (shr_fexp Float32.prec Float32.emax (Z.pos m) e l).1
  /\ -149 <= (shr_fexp Float32.prec Float32.emax (Z.pos m) e l).2.
Proof.
  intros He. unfold shr_fexp, shr. rewrite fexp32. cbn [Zdigits2].
  pose proof (digits2_pos_lower m) as Hd.
  assert (Hm : shr_m (shr_record_of_loc (Z.pos m) l) = Z.pos m)
    by (destruct l as [|[]]; reflexivity).
  destruct (Z.max (Z.pos (digits2_pos m) + e - 24) (-149) - e) as [|n|n] eqn:En;
    cbn [fst snd].
  - rewrite Hm. lia.
  - rewrite iter_shr_1_m by (rewrite Hm; lia). rewrite Hm. split; [|lia].
    apply Z.div_str_pos. split; [apply Z.pow_pos_nonneg; lia|].
    etransitivity; [|exact Hd]. apply Z.pow_le_mono_r; lia.
  - rewrite Hm. lia.
Qed.

Lemma round_nearest_even_positive m l : 0 < m -> 0 < round_nearest_even m l.
Proof.
  intros Hm. destruct l as [|[]]; cbn [round_nearest_even]; try lia.
  destruct (Z.even m); lia.
Qed.

Lemma binary_round_aux_nonzero sx m e l :
  -149 <= e ->
  Float32.is_zero (binary_round_aux Float32.prec Float32.emax sx (Z.pos m) e l) = false.
Proof.
  intros He. unfold binary_round_aux.
  destruct (shr_fexp_positive m e l He) as [H1 H2].
  destruct (shr_fexp Float32.prec Float32.emax (Z.pos m) e l) as [mrs' e'].
  cbn [fst snd] in H1, H2.
  pose proof (round_nearest_even_positive _ (loc_of_shr_record mrs') H1) as H3.
  destruct (round_nearest_even (shr_m mrs') (loc_of_shr_record mrs')) as [|m2|m2];
    try lia.
  destruct (shr_fexp_positive m2 e' loc_Exact H2) as [H4 _].
  destruct (shr_fexp Float32.prec Float32.emax (Z.pos m2) e' loc_Exact) as [mrs'' e''].
  cbn [fst] in H4.
  destruct (shr_m mrs'') as [|m3|m3]; try lia.
  destruct (e'' <=? Float32.emax - Float32.prec); reflexivity.
Qed.

Lemma binary_round_nonzero sx m :
  Float32.is_zero (binary_round Float32.prec Float32.emax sx m 0) = false.
Proof.
  unfold binary_round, shl_align. rewrite fexp32.
  destruct (Z.max (Z.pos (digits2_pos m) + 0 - 24) (-149) - 0) as [|d|d] eqn:Ed;
    apply binary_round_aux_nonzero; lia.
Qed.

Lemma of_int_is_zero i : Float32.is_zero (Float32.of_int i) = (i =? 0).
Proof.
  destruct i as [|m|m]; [reflexivity| |];
    unfold Float32.of_int, binary_normalize; apply binary_round_nonzero.
Qed.
End RoundingFacts.

(** ** The viewport update *)

Lemma setupViewport_lookup window (P0 : mat4) :
  length P0 = 16%nat ->
  (setupViewport window P0).1 !! 0%nat
    = Some (Float32.div (Float32.mul (P0 !!! 5%nat) (Float32.of_int (fi_size window).2))
                        (Float32.of_int (fi_size window).1))
  /\ (forall i, i <> 0%nat -> (setupViewport window P0).1 !! i = P0 !! i)
  /\ length (setupViewport window P0).1 = 16%nat.
Proof.
  intros Hlen. unfold setupViewport, aspect_dividend, aspect_divisor. cbn [fst].
  split; [|split].
  - apply list_lookup_insert_eq. unfold GLfloat, Float32.t in *. lia.
  - intros i Hi. apply list_lookup_insert_ne. congruence.
  - rewrite <- Hlen. apply length_insert.
Qed.

(** C2: for every window size (w,h) with w > 0 and h > 0, [setupViewport]
    sets [P[0]] to [P[5]*h/w] (binary32 arithmetic, left to right) and
    leaves [P[5]] -- and every other entry -- unchanged; with w=800, h=400
    and P[5]=4.0 it sets P[0] = 2.0. *)
Theorem setupViewport_aspect :
  (forall window (P0 : mat4) (w h : Z),
     fi_size window = (w, h) -> 0 < w -> 0 < h -> length P0 = 16%nat ->
     (setupViewport window P0).1 !! 0%nat
       = Some (Float32.div (Float32.mul (P0 !!! 5%nat) (Float32.of_int h)) (Float32.of_int w))
     /\ (setupViewport window P0).1 !! 5%nat = P0 !! 5%nat
     /\ (forall i, i <> 0%nat -> (setupViewport window P0).1 !! i = P0 !! i))
  /\ (forall window (P0 : mat4),
        fi_size window = (800, 400) -> length P0 = 16%nat ->
        P0 !! 5%nat = Some (Float32.of_int 4) ->
        (setupViewport window P0).1 !! 0%nat = Some (Float32.of_int 2)).
Proof.
  split.
  - intros window P0 w h Hsize _ _ Hlen.
    destruct (setupViewport_lookup window P0 Hlen) as (H0 & Hother & _).
    rewrite Hsize in H0. cbn [fst snd] in H0.
    split; [exact H0|]. split; [apply Hother; discriminate | exact Hother].
  - intros window P0 Hsize Hlen H5.
    destruct (setupViewport_lookup window P0 Hlen) as (H0 & _ & _).
    rewrite H0, Hsize. cbn [fst snd].
    rewrite (list_lookup_total_correct _ _ _ H5).
    vm_compute. reflexivity.
Qed.

Lemma setupViewport_aspect_witness :
  (setupViewport TestDouble.idle P_init).1 !! 0%nat
    = Some (Float32.div (Float32.mul (P_init !!! 5%nat) (Float32.of_int 400))
                        (Float32.of_int 800))
  /\ (setupViewport TestDouble.idle P_init).1 !! 5%nat = P_init !! 5%nat
  /\ (setupViewport TestDouble.idle P_init).1 !! 0%nat = Some (Float32.of_int 2).
Proof.
  destruct (proj1 setupViewport_aspect TestDouble.idle P_init 800 400)
    as (H0 & H5 & _); [reflexivity | lia | lia | reflexivity |].
  split; [exact H0|]. split; [exact H5|].
  apply (proj2 setupViewport_aspect TestDouble.idle P_init); reflexivity.
Defined.

(** C6, as stated, fails: a minimised window reports a width of 0, and
    [setupViewport] then divides by zero -- [P[0]] becomes an infinity. *)
Lemma setupViewport_zero_width_divides_by_zero :
  fi_size TestDouble.minimised = (0, 400)
  /\ Float32.is_zero (aspect_divisor (fi_size TestDouble.minimised).1) = true
  /\ (setupViewport TestDouble.minimised P_init).1 !! 0%nat = Some (S754_infinity false)
  /\ Float32.is_finite (S754_infinity false) = false.
Proof. vm_compute. repeat split; reflexivity. Qed.

(** C6, amended: [setupViewport] has no guard; it divides by
    [(float)width], which is zero exactly when the reported width is 0.
    For every reported size with a non-zero width -- the height may be 0 --
    no division by zero is performed. *)
Theorem setupViewport_divisor_nonzero window (P0 : mat4) :
  (fi_size window).1 <> 0 ->
  length P0 = 16%nat ->
  (setupViewport window P0).1 !! 0%nat
    = Some (Float32.div (aspect_dividend P0 (fi_size window).2)
                        (aspect_divisor (fi_size window).1))
  /\ Float32.is_zero (aspect_divisor (fi_size window).1) = false.
Proof.
  intros Hw Hlen. split.
  - apply (setupViewport_lookup window P0 Hlen).
  - unfold aspect_divisor. rewrite of_int_is_zero. apply Z.eqb_neq. exact Hw.
Qed.

Lemma setupViewport_divisor_nonzero_witness :
  Float32.is_zero (aspect_divisor (fi_size TestDouble.idle).1) = false.
Proof.
  apply (setupViewport_divisor_nonzero TestDouble.idle P_init); [discriminate | reflexivity].
Defined.

(** ** One iteration of the render loop *)

Section FrameProperties.
Context {matlib : MatrixLib}.
Variable env : Env.

(** C1: each frame builds MV = Translation(0,0,-5) x RotationX(elevation)
    x RotationY(azimuth), in that order, where elevation and azimuth are
    the rotator's current [theta] and [phi] converted from degrees to
    radians; that matrix is what is pushed to the MV uniform. *)
Theorem modelview_composition window s :
  let r := rotator (final (frame env window s)) in
  let elevation := Float64.div (Float64.mul (theta r) Float64.M_PI) (Float64.of_int 180) in
  let azimuth := Float64.div (Float64.mul (phi r) Float64.M_PI) (Float64.of_int 180) in
  Tz = Translation f32_zero f32_zero (Float32.of_int (-5))
  /\ r = fi_rotator window
  /\ MV (final (frame env window s))
       = mat4mult (Translation f32_zero f32_zero (Float32.of_int (-5)))
                  (mat4mult (mat4rotx elevation) (mat4roty azimuth))
  /\ (location_MV s <> -1 ->
      In (GlUniformMatrix4fv (location_MV s) 1 false
            (mat4mult (Translation f32_zero f32_zero (Float32.of_int (-5)))
                      (mat4mult (mat4rotx elevation) (mat4roty azimuth))))
         (calls (frame env window s))).
Proof.
  cbv zeta. rewrite frame_final, frame_calls. cbn [rotator MV].
  split; [reflexivity|]. split; [reflexivity|]. split; [reflexivity|].
  intros Hloc. apply Z.eqb_neq in Hloc. rewrite Hloc.
  rewrite !in_app_iff. right. right. right. left. left. reflexivity.
Qed.

(** C3: each of the four uniform updates (tex, time, MV, P) is made only
    when its location is not -1; for a location of -1 the update makes
    no call at all ([glfwGetTime] included, for the time uniform).  A
    skipped update prints nothing and does not ask the loop to end. *)
Theorem uniform_updates_guarded window s :
  List.filter is_glUniform (calls (frame env window s))
    = (if location_tex s =? -1 then [] else [GlUniform1i (location_tex s) 0])
      ++ (if location_time s =? -1 then []
          else [GlUniform1f (location_time s) (Float32.of_double (fi_time window))])
      ++ (if location_MV s =? -1 then []
          else [GlUniformMatrix4fv (location_MV s) 1 false (MV (final (frame env window s)))])
      ++ (if location_P s =? -1 then []
          else [GlUniformMatrix4fv (location_P s) 1 false (P (final (frame env window s)))])
  /\ count is_GlfwGetTime (calls (frame env window s))
       = (if (location_time s =? -1)%Z then 0 else 1)%nat
  /\ count is_Printf (calls (frame env window s)) = 0%nat
  /\ should_close (final (frame env window s)) = should_close s || requests_exit window.
Proof.
  rewrite frame_final, frame_calls. cbn [MV P should_close]. unfold count.
  destruct (location_tex s =? -1), (location_time s =? -1),
    (location_MV s =? -1), (location_P s =? -1),
    (fi_space window =? 0), (fi_escape window =? 0);
    repeat split; reflexivity.
Qed.

(** C7: the Model-View matrix a frame leaves in [MV] is a function of
    the rotator state alone: two frames with the same rotator angles
    produce the same matrix, whatever the locals (the previous [MV],
    [R1], [R2] included) and the rest of the input were. *)
Theorem modelview_pure window1 window2 s1 s2 :
  fi_rotator window1 = fi_rotator window2 ->
  MV (final (frame env window1 s1)) = MV (final (frame env window2 s2))
  /\ MV (final (frame env window2 (final (frame env window1 s1))))
     = MV (final (frame env window1 s1)).
Proof.
  intros Hr. rewrite !frame_final. cbn [MV]. rewrite Hr. split; reflexivity.
Qed.

(** C8, amended: in every iteration the viewport and the projection
    matrix are recomputed before the rotator is polled.  The calls of a
    frame are, in order: FPS, clear, [setupViewport], rotator poll, bind
    program, tex and time uniforms, (Model-View recomputation,) MV and P
    uniforms, draw, unbind, swap buffers, poll events, SPACE, ESC. *)
Theorem frame_call_order window s :
  calls (frame env window s) =
    [ ComputeFPS;
      GlClearColor f32_0_3 f32_0_3 f32_0_3 f32_zero;
      GlClear [GL_COLOR_BUFFER_BIT; GL_DEPTH_BUFFER_BIT];
      GlfwGetWindowSize;
      GlViewport 0 0 (fi_size window).1 (fi_size window).2;
      PollRotatorMouse;
      GlUseProgram (programObject s) ]
    ++ (if location_tex s =? -1 then [] else [GlUniform1i (location_tex s) 0])
    ++ (if location_time s =? -1 then []
        else [GlfwGetTime;
              GlUniform1f (location_time s) (Float32.of_double (fi_time window))])
    ++ (if location_MV s =? -1 then []
        else [GlUniformMatrix4fv (location_MV s) 1 false (MV (final (frame env window s)))])
    ++ (if location_P s =? -1 then []
        else [GlUniformMatrix4fv (location_P s) 1 false (P (final (frame env window s)))])
    ++ [ GlEnable GL_DEPTH_TEST; GlEnable GL_CULL_FACE; GlCullFace GL_BACK;
         SoupRender; GlUseProgram 0; GlfwSwapBuffers; GlfwPollEvents;
         GlfwGetKey GLFW_KEY_SPACE ]
    ++ (if fi_space window =? 0 then []
        else [GlDeleteProgram (programObject s); createShader_call env])
    ++ [ GlfwGetKey GLFW_KEY_ESCAPE ]
    ++ (if fi_escape window =? 0 then [] else [GlfwSetWindowShouldClose true])
  /\ precedes is_GlViewport is_PollRotatorMouse (calls (frame env window s)) = true
  /\ precedes is_PollRotatorMouse is_GlViewport (calls (frame env window s)) = false.
Proof.
  rewrite frame_final, frame_calls. cbn [MV P]. repeat split; reflexivity.
Qed.

(** The reload path of a frame: SPACE down replaces the program object
    and touches none of the cached locations. *)
Lemma frame_keeps_locations window s :
  location_MV (final (frame env window s)) = location_MV s
  /\ location_P (final (frame env window s)) = location_P s
  /\ location_time (final (frame env window s)) = location_time s
  /\ location_tex (final (frame env window s)) = location_tex s.
Proof. rewrite frame_final. repeat split; reflexivity. Qed.

Ltac count_frame_calls window s :=
  rewrite frame_calls; unfold count, space_down;
  destruct (location_tex s =? -1), (location_time s =? -1),
    (location_MV s =? -1), (location_P s =? -1),
    (fi_space window =? 0), (fi_escape window =? 0);
  reflexivity.

Lemma frame_count_GlDeleteProgram window s :
  count is_GlDeleteProgram (calls (frame env window s))
  = if space_down window then 1%nat else 0%nat.
Proof. count_frame_calls window s. Qed.

Lemma frame_count_CreateShader window s :
  count is_CreateShader (calls (frame env window s))
  = if space_down window then 1%nat else 0%nat.
Proof. count_frame_calls window s. Qed.

Lemma frame_count_SoupReadOBJ window s :
  count is_SoupReadOBJ (calls (frame env window s)) = 0%nat.
Proof. count_frame_calls window s. Qed.

Lemma frame_count_GlGetUniformLocation window s :
  count is_GlGetUniformLocation (calls (frame env window s)) = 0%nat.
Proof. count_frame_calls window s. Qed.
End FrameProperties.

(** ** Counting calls over the whole run *)

Lemma count_app p l1 l2 : count p (l1 ++ l2) = (count p l1 + count p l2)%nat.
Proof. unfold count. rewrite List.filter_app, length_app. reflexivity. Qed.

Lemma count_cons p c l :
  count p (c :: l) = ((if p c then 1 else 0) + count p l)%nat.
Proof. unfold count. cbn [List.filter]. destruct (p c); reflexivity. Qed.

Lemma count_zero_filter p l : count p l = 0%nat -> List.filter p l = [].
Proof. unfold count. intros Hc. destruct (List.filter p l); [reflexivity | discriminate]. Qed.

Lemma list_sum_cons (a : nat) l : list_sum (a :: l) = (a + list_sum l)%nat.
Proof. reflexivity. Qed.

Lemma list_sum_indicator {A} (p : A -> bool) l :
  list_sum (List.map (fun x => if p x then 1%nat else 0%nat) l) = length (List.filter p l).
Proof.
  induction l as [|x l IH]; [reflexivity|].
  cbn [List.map List.filter]. rewrite list_sum_cons, IH. destruct (p x); reflexivity.
Qed.

Lemma list_sum_zero {A} (l : list A) : list_sum (List.map (fun _ => 0%nat) l) = 0%nat.
Proof.
  induction l as [|x l IH]; [reflexivity|].
  cbn [List.map]. rewrite list_sum_cons, IH. reflexivity.
Qed.

Section RunFacts.
Context {matlib : MatrixLib}.
Variable env : Env.

(** A count over the loop is the sum of the counts of the frames it
    executed, for calls other than the loop test itself. *)
Lemma render_loop_count (p : call -> bool) (k : FrameInput -> nat) :
  p GlfwWindowShouldClose = false ->
  (forall window s, count p (calls (frame env window s)) = k window) ->
  forall script s,
    count p (calls (render_loop env script s))
    = list_sum (List.map k (frames_run (should_close s) script)).
Proof.
  intros Hp Hk. induction script as [|window script IH]; intros s;
    destruct (should_close s) eqn:E.
  - rewrite render_loop_closing by assumption. unfold calls, count; cbn. now rewrite Hp.
  - rewrite render_loop_nil by assumption. unfold calls, count; cbn. now rewrite Hp.
  - rewrite render_loop_closing by assumption. unfold calls, count; cbn. now rewrite Hp.
  - rewrite render_loop_cons by assumption. rewrite calls_run.
    rewrite count_cons, Hp, count_app, Hk, IH, frame_should_close, E.
    reflexivity.
Qed.

Lemma render_loop_head script s :
  exists rest, calls (render_loop env script s) = GlfwWindowShouldClose :: rest.
Proof.
  destruct (should_close s) eqn:E.
  - rewrite render_loop_closing by assumption. eexists. reflexivity.
  - destruct script as [|window script].
    + rewrite render_loop_nil by assumption. eexists. reflexivity.
    + rewrite render_loop_cons by assumption. eexists. reflexivity.
Qed.

(** The loop never writes the cached uniform locations. *)
Lemma render_loop_locations script : forall s,
  location_MV (final (render_loop env script s)) = location_MV s
  /\ location_P (final (render_loop env script s)) = location_P s
  /\ location_time (final (render_loop env script s)) = location_time s
  /\ location_tex (final (render_loop env script s)) = location_tex s.
Proof.
  induction script as [|window script IH]; intros s;
    destruct (should_close s) eqn:E.
  - rewrite render_loop_closing by assumption. repeat split; reflexivity.
  - rewrite render_loop_nil by assumption. repeat split; reflexivity.
  - rewrite render_loop_closing by assumption. repeat split; reflexivity.
  - rewrite render_loop_cons by assumption. rewrite !final_run.
    destruct (IH (final (frame env window s))) as (H1 & H2 & H3 & H4).
    destruct (frame_keeps_locations env window s) as (F1 & F2 & F3 & F4).
    rewrite H1, H2, H3, H4, F1, F2, F3, F4. repeat split; reflexivity.
Qed.

Lemma startup_count_GlDeleteProgram : count is_GlDeleteProgram (startup_calls env) = 0%nat.
Proof. reflexivity. Qed.

Lemma startup_count_CreateShader : count is_CreateShader (startup_calls env) = 1%nat.
Proof. reflexivity. Qed.

Lemma startup_count_SoupReadOBJ : count is_SoupReadOBJ (startup_calls env) = 0%nat.
Proof. reflexivity. Qed.

Lemma shutdown_count (p : call -> bool) (b : bool) :
  p GlfwDestroyWindow = false -> p GlfwTerminate = false ->
  count p (if b then [GlfwDestroyWindow; GlfwTerminate] else []) = 0%nat.
Proof. intros H1 H2. destruct b; unfold count; cbn; rewrite ?H1, ?H2; reflexivity. Qed.
End RunFacts.

(** ** The whole run *)

Section RunProperties.
Context {matlib : MatrixLib}.
Variable env : Env.

(** C4: [main] returns 0 on a normal exit, after destroying the window
    and terminating GLFW; it returns -1, after printing a diagnostic,
    when [glfwInit] or [glfwCreateWindow] fails.  A script in which some
    frame asks to exit does reach the normal exit. *)
Theorem main_exit_status script s :
  (env_glfwInit env = false ->
     value (main env script s) = Some (-1)
     /\ calls (main env script s)
        = [ InitRotatorMouse; GlfwInit;
            Printf (String.append "Failed to initialise GLFW. Exiting." LF) [] ])
  /\ (env_glfwInit env = true -> env_window env = false ->
        value (main env script s) = Some (-1)
        /\ exists before,
             calls (main env script s)
             = before ++ [ Printf (String.append "Failed to open GLFW window. Exiting." LF) [];
                           GlfwTerminate ])
  /\ (env_glfwInit env = true -> env_window env = true ->
        (existsb requests_exit script = true -> value (main env script s) = Some 0)
        /\ (forall status, value (main env script s) = Some status ->
              status = 0
              /\ exists before,
                   calls (main env script s)
                   = before ++ [GlfwDestroyWindow; GlfwTerminate])).
Proof.
  split; [|split].
  - intros E. rewrite main_no_glfw by assumption. split; reflexivity.
  - intros E1 E2. rewrite main_no_window by assumption. split; [reflexivity|].
    rewrite calls_run.
    exists [ InitRotatorMouse; GlfwInit; GlfwGetPrimaryMonitor; GlfwGetVideoMode;
             GlfwWindowHint GLFW_CONTEXT_VERSION_MAJOR 3;
             GlfwWindowHint GLFW_CONTEXT_VERSION_MINOR 3;
             GlfwWindowHint GLFW_OPENGL_FORWARD_COMPAT GL_TRUE;
             GlfwWindowHint GLFW_OPENGL_PROFILE GLFW_OPENGL_CORE_PROFILE;
             GlfwCreateWindow ((env_vidmode env).1 ÷ 2) ((env_vidmode env).2 ÷ 2)
                              "Hello GLSL" ].
    reflexivity.
  - intros E1 E2. rewrite main_running by assumption.
    rewrite value_run, calls_run, render_loop_value.
    change (should_close (startup_locals env s)) with false. cbn [orb].
    split.
    + intros Hexit. rewrite Hexit. reflexivity.
    + intros status Hstatus.
      destruct (existsb requests_exit script); [|discriminate].
      injection Hstatus as <-. split; [reflexivity|].
      eexists. rewrite app_assoc. reflexivity.
Qed.

(** C5, amended: the reload is level-triggered.  Every executed frame
    at whose end SPACE is down destroys the current program object
    exactly once and requests exactly one recompilation; a key held for
    k frames triggers k reloads. *)
Theorem reload_once_per_frame_space_down script s :
  env_glfwInit env = true -> env_window env = true ->
  count is_GlDeleteProgram (calls (main env script s))
    = length (List.filter space_down (frames_run false script))
  /\ count is_CreateShader (calls (main env script s))
     = S (length (List.filter space_down (frames_run false script)))
  /\ (forall window s0,
        count is_GlDeleteProgram (calls (frame env window s0))
          = (if space_down window then 1 else 0)%nat
        /\ count is_CreateShader (calls (frame env window s0))
           = (if space_down window then 1 else 0)%nat
        /\ List.filter is_GlDeleteProgram (calls (frame env window s0))
           = if space_down window then [GlDeleteProgram (programObject s0)] else []).
Proof.
  intros E1 E2. rewrite main_running by assumption. rewrite calls_run.
  rewrite !count_app, !shutdown_count by reflexivity.
  rewrite startup_count_GlDeleteProgram, startup_count_CreateShader.
  rewrite (render_loop_count env is_GlDeleteProgram
             (fun w => if space_down w then 1%nat else 0%nat) eq_refl
             (frame_count_GlDeleteProgram env)).
  rewrite (render_loop_count env is_CreateShader
             (fun w => if space_down w then 1%nat else 0%nat) eq_refl
             (frame_count_CreateShader env)).
  rewrite !list_sum_indicator.
  change (should_close (startup_locals env s)) with false.
  split; [lia|]. split; [lia|].
  intros window s0. split; [apply frame_count_GlDeleteProgram|].
  split; [apply frame_count_CreateShader|].
  rewrite frame_calls. unfold space_down.
  destruct (location_tex s0 =? -1), (location_time s0 =? -1),
    (location_MV s0 =? -1), (location_P s0 =? -1),
    (fi_space window =? 0), (fi_escape window =? 0); reflexivity.
Qed.

Lemma main_count_SoupReadOBJ script s :
  count is_SoupReadOBJ (calls (main env script s)) = 0%nat.
Proof.
  destruct (env_glfwInit env) eqn:E1; [destruct (env_window env) eqn:E2|].
  - rewrite main_running by assumption. rewrite calls_run.
    rewrite !count_app, shutdown_count by reflexivity.
    rewrite startup_count_SoupReadOBJ.
    rewrite (render_loop_count env is_SoupReadOBJ (fun _ => 0%nat) eq_refl
               (frame_count_SoupReadOBJ env)).
    rewrite list_sum_zero. reflexivity.
  - rewrite main_no_window by assumption. reflexivity.
  - rewrite main_no_glfw by assumption. reflexivity.
Qed.

(** C9, amended: at start-up the program builds its mesh as a generated
    sphere (radius 1.0, 50 segments); the configured mesh file path is
    never read.  The texture and the two shader paths are the
    configured paths that are used. *)
Theorem mesh_is_generated_sphere script s :
  count is_SoupReadOBJ (calls (main env script s)) = 0%nat
  /\ (env_glfwInit env = true -> env_window env = true ->
      In (SoupCreateSphere (Float64.of_int 1) 50) (calls (main env script s))
      /\ In (CreateTexture (TEXTUREFILENAME (env_platform env)))
            (calls (main env script s))
      /\ In (CreateShader (VERTEXSHADERFILENAME (env_platform env))
                          (FRAGMENTSHADERFILENAME (env_platform env)))
            (calls (main env script s))).
Proof.
  split; [apply main_count_SoupReadOBJ|].
  intros E1 E2. rewrite main_running by assumption. rewrite calls_run.
  repeat split; apply in_or_app; left; unfold startup_calls, createShader_call;
    cbn [In]; tauto.
Qed.

(** C10: the four uniform locations are queried exactly once each, before
    the render loop starts, and never again; the loop -- the SPACE reload
    included, which replaces the program object -- leaves the four cached
    locations as they were queried from the first program. *)
Theorem uniform_locations_queried_once script s :
  env_glfwInit env = true -> env_window env = true ->
  let first_program := env_createShader env in
  List.filter is_GlGetUniformLocation (calls (main env script s))
    = [ GlGetUniformLocation first_program "MV";
        GlGetUniformLocation first_program "P";
        GlGetUniformLocation first_program "time";
        GlGetUniformLocation first_program "tex" ]
  /\ (exists before after,
        calls (main env script s) = before ++ GlfwWindowShouldClose :: after
        /\ count is_GlfwWindowShouldClose before = 0%nat
        /\ count is_GlGetUniformLocation before = 4%nat
        /\ count is_GlGetUniformLocation after = 0%nat)
  /\ (location_MV (final (main env script s)) = env_uniform env first_program "MV"
      /\ location_P (final (main env script s)) = env_uniform env first_program "P"
      /\ location_time (final (main env script s)) = env_uniform env first_program "time"
      /\ location_tex (final (main env script s)) = env_uniform env first_program "tex")
  /\ (forall window s0, space_down window = true ->
        programObject (final (frame env window s0)) = fi_reload window
        /\ location_MV (final (frame env window s0)) = location_MV s0
        /\ location_P (final (frame env window s0)) = location_P s0
        /\ location_time (final (frame env window s0)) = location_time s0
        /\ location_tex (final (frame env window s0)) = location_tex s0).
Proof.
  intros E1 E2 first_program. rewrite main_running by assumption.
  rewrite calls_run, final_run.
  pose proof (render_loop_count env is_GlGetUniformLocation (fun _ => 0%nat) eq_refl
                (frame_count_GlGetUniformLocation env) script (startup_locals env s))
    as Hloop.
  rewrite list_sum_zero in Hloop.
  assert (Hend : forall b : bool,
             count is_GlGetUniformLocation
               (if b then [GlfwDestroyWindow; GlfwTerminate] else []) = 0%nat)
    by (intros []; reflexivity).
  split; [|split; [|split]].
  - rewrite !List.filter_app.
    rewrite (count_zero_filter _ _ Hloop), (count_zero_filter _ _ (Hend _)).
    reflexivity.
  - destruct (render_loop_head env script (startup_locals env s)) as [rest Hrest].
    rewrite Hrest in Hloop |- *.
    exists (startup_calls env).
    eexists. split; [reflexivity|]. split; [reflexivity|]. split; [reflexivity|].
    rewrite count_cons in Hloop. rewrite count_app, Hend. cbn in Hloop. lia.
  - destruct (render_loop_locations env script (startup_locals env s))
      as (H1 & H2 & H3 & H4).
    rewrite H1, H2, H3, H4. repeat split; reflexivity.
  - intros window s0 Hdown. unfold space_down in Hdown.
    rewrite frame_final. cbn [programObject location_MV location_P location_time location_tex].
    destruct (fi_space window =? 0); [discriminate|]. repeat split; reflexivity.
Qed.
End RunProperties.

(** ** Two invariants of the render loop *)

Section LoopInvariants.
Context {matlib : MatrixLib}.
Variable env : Env.

(** A shader program that declares none of the four uniforms receives no
    [glUniform*] call during the whole run. *)
Lemma frame_absent_uniforms window s :
  location_tex s = -1 -> location_time s = -1 ->
  location_MV s = -1 -> location_P s = -1 ->
  count is_glUniform (calls (frame env window s)) = 0%nat.
Proof.
  intros Htex Htime Hmv Hp. rewrite frame_calls, Htex, Htime, Hmv, Hp.
  destruct (fi_space window =? 0), (fi_escape window =? 0); reflexivity.
Qed.

Lemma render_loop_absent_uniforms script : forall s,
  location_tex s = -1 -> location_time s = -1 ->
  location_MV s = -1 -> location_P s = -1 ->
  count is_glUniform (calls (render_loop env script s)) = 0%nat.
Proof.
  induction script as [|window script IH]; intros s Htex Htime Hmv Hp;
    destruct (should_close s) eqn:E.
  - rewrite render_loop_closing by assumption. reflexivity.
  - rewrite render_loop_nil by assumption. reflexivity.
  - rewrite render_loop_closing by assumption. reflexivity.
  - rewrite render_loop_cons by assumption. rewrite calls_run.
    rewrite count_cons, count_app, frame_absent_uniforms by assumption.
    destruct (frame_keeps_locations env window s) as (F1 & F2 & F3 & F4).
    rewrite IH by congruence. reflexivity.
Qed.

Corollary main_absent_uniforms script s :
  env_glfwInit env = true -> env_window env = true ->
  (forall name, env_uniform env (env_createShader env) name = -1) ->
  count is_glUniform (calls (main env script s)) = 0%nat
  /\ (existsb requests_exit script = true -> value (main env script s) = Some 0).
Proof.
  intros E1 E2 Habsent. rewrite main_running by assumption.
  rewrite calls_run, value_run, render_loop_value. split.
  - rewrite !count_app.
    rewrite render_loop_absent_uniforms by (cbn; apply Habsent).
    destruct (_ || _); reflexivity.
  - intros Hexit. rewrite Hexit, orb_true_r. reflexivity.
Qed.

(** The projection matrix keeps its sixteen entries, and [P[5]] its
    value, through every frame. *)
Lemma frame_projection window s :
  P (final (frame env window s)) = (setupViewport window (P s)).1.
Proof. rewrite frame_final. reflexivity. Qed.

Lemma render_loop_keeps_P5 script : forall s,
  length (P s) = 16%nat ->
  length (P (final (render_loop env script s))) = 16%nat
  /\ P (final (render_loop env script s)) !! 5%nat = P s !! 5%nat.
Proof.
  induction script as [|window script IH]; intros s Hlen;
    destruct (should_close s) eqn:E.
  - rewrite render_loop_closing by assumption. split; [exact Hlen | reflexivity].
  - rewrite render_loop_nil by assumption. split; [exact Hlen | reflexivity].
  - rewrite render_loop_closing by assumption. split; [exact Hlen | reflexivity].
  - rewrite render_loop_cons by assumption. rewrite final_run.
    destruct (setupViewport_lookup window (P s) Hlen) as (_ & Hother & Hlen').
    rewrite <- frame_projection in Hother, Hlen'.
    destruct (IH _ Hlen') as (H1 & H2).
    split; [exact H1|]. rewrite H2. apply Hother. discriminate.
Qed.
End LoopInvariants.

(** ** The model run on concrete inputs *)

(** With the rotator at rest the Model-View matrix is the translation
    itself. *)
Example modelview_at_rest :
  MV (final (frame (matlib := TestDouble.lib) TestDouble.env_ok TestDouble.idle
                   TestDouble.at_loop))
  = Translation f32_zero f32_zero (Float32.of_int (-5)).
Proof. vm_compute. reflexivity. Qed.

(** A program without the four uniforms: no update call in the run, and
    the run ends normally. *)
Example run_without_uniforms :
  count is_glUniform
    (calls (main (matlib := TestDouble.lib) TestDouble.env_no_uniforms
              [TestDouble.idle; TestDouble.escape_pressed] TestDouble.junk)) = 0%nat
  /\ value (main (matlib := TestDouble.lib) TestDouble.env_no_uniforms
              [TestDouble.idle; TestDouble.escape_pressed] TestDouble.junk) = Some 0.
Proof. vm_compute. split; reflexivity. Qed.

(** Degrees to radians in binary64: 0 and 180 degrees. *)
Example deg2rad_values :
  deg2rad (S754_zero false) = S754_zero false
  /\ deg2rad (Float64.of_int 180) = Float64.M_PI.
Proof. vm_compute. split; reflexivity. Qed.

Lemma modelview_composition_witness :
  In (GlUniformMatrix4fv (location_MV TestDouble.at_loop) 1 false
        (TestDouble.product (Translation f32_zero f32_zero (Float32.of_int (-5)))
           (TestDouble.product
              (TestDouble.rotx (deg2rad (theta TestDouble.still)))
              (TestDouble.roty (deg2rad (phi TestDouble.still))))))
     (calls (frame (matlib := TestDouble.lib) TestDouble.env_ok TestDouble.idle
                   TestDouble.at_loop)).
Proof.
  apply (proj2 (proj2 (proj2
           (modelview_composition (matlib := TestDouble.lib) TestDouble.env_ok
              TestDouble.idle TestDouble.at_loop)))).
  vm_compute. discriminate.
Defined.

Lemma modelview_pure_witness :
  MV (final (frame (matlib := TestDouble.lib) TestDouble.env_ok TestDouble.idle
                   TestDouble.junk))
  = MV (final (frame (matlib := TestDouble.lib) TestDouble.env_ok
                     (TestDouble.space_held 5) TestDouble.at_loop)).
Proof.
  exact (proj1 (modelview_pure (matlib := TestDouble.lib) TestDouble.env_ok
                  TestDouble.idle (TestDouble.space_held 5)
                  TestDouble.junk TestDouble.at_loop eq_refl)).
Defined.

(** C8, as stated, fails: in a frame the rotator is polled after the
    viewport and the projection matrix were recomputed, not before. *)
Lemma rotator_polled_after_viewport :
  precedes is_PollRotatorMouse is_GlViewport
    (calls (frame (matlib := TestDouble.lib) TestDouble.env_ok TestDouble.idle
                  TestDouble.at_loop)) = false
  /\ first_index is_GlViewport
       (calls (frame (matlib := TestDouble.lib) TestDouble.env_ok TestDouble.idle
                     TestDouble.at_loop)) = Some 4%nat
  /\ first_index is_PollRotatorMouse
       (calls (frame (matlib := TestDouble.lib) TestDouble.env_ok TestDouble.idle
                     TestDouble.at_loop)) = Some 5%nat.
Proof. vm_compute. repeat split; reflexivity. Qed.

Lemma main_exit_status_witness :
  value (main (matlib := TestDouble.lib) TestDouble.env_no_glfw [] TestDouble.junk)
    = Some (-1)
  /\ value (main (matlib := TestDouble.lib) TestDouble.env_no_window [] TestDouble.junk)
     = Some (-1)
  /\ value (main (matlib := TestDouble.lib) TestDouble.env_ok
                 [TestDouble.idle; TestDouble.escape_pressed] TestDouble.junk)
     = Some 0.
Proof.
  split; [|split].
  - apply (proj1 (main_exit_status (matlib := TestDouble.lib) TestDouble.env_no_glfw
                    [] TestDouble.junk)).
    reflexivity.
  - apply (proj1 (proj2 (main_exit_status (matlib := TestDouble.lib)
                           TestDouble.env_no_window [] TestDouble.junk)));
      reflexivity.
  - apply (proj2 (proj2 (main_exit_status (matlib := TestDouble.lib) TestDouble.env_ok
                           [TestDouble.idle; TestDouble.escape_pressed] TestDouble.junk)));
      reflexivity.
Defined.

(** C5, as stated, fails: one press of SPACE held down for two frames (a
    single press edge) destroys the program twice and requests two
    recompilations. *)
Lemma reload_repeats_while_space_held :
  press_edges false [TestDouble.space_held 2; TestDouble.space_held 3] = 1%nat
  /\ count is_GlDeleteProgram
       (calls (render_loop (matlib := TestDouble.lib) TestDouble.env_ok
                 [TestDouble.space_held 2; TestDouble.space_held 3] TestDouble.at_loop))
     = 2%nat
  /\ count is_CreateShader
       (calls (render_loop (matlib := TestDouble.lib) TestDouble.env_ok
                 [TestDouble.space_held 2; TestDouble.space_held 3] TestDouble.at_loop))
     = 2%nat
  /\ List.filter is_GlDeleteProgram
       (calls (main (matlib := TestDouble.lib) TestDouble.env_ok
                 [TestDouble.space_held 2; TestDouble.space_held 3] TestDouble.junk))
     = [GlDeleteProgram 1; GlDeleteProgram 2].
Proof. vm_compute. repeat split; reflexivity. Qed.

Lemma reload_once_per_frame_space_down_witness :
  count is_GlDeleteProgram
    (calls (main (matlib := TestDouble.lib) TestDouble.env_ok
              [TestDouble.space_held 2; TestDouble.idle; TestDouble.space_held 3;
               TestDouble.escape_pressed; TestDouble.space_held 4]
              TestDouble.junk))
  = length (List.filter space_down
              (frames_run false
                 [TestDouble.space_held 2; TestDouble.idle; TestDouble.space_held 3;
                  TestDouble.escape_pressed; TestDouble.space_held 4])).
Proof.
  exact (proj1 (reload_once_per_frame_space_down (matlib := TestDouble.lib)
                  TestDouble.env_ok _ TestDouble.junk eq_refl eq_refl)).
Defined.

(** C9, as stated, fails: a complete run never reads the mesh file; the
    mesh is the generated sphere. *)
Lemma mesh_file_is_not_loaded :
  count is_SoupReadOBJ
    (calls (main (matlib := TestDouble.lib) TestDouble.env_ok
              [TestDouble.escape_pressed] TestDouble.junk)) = 0%nat
  /\ ~ In (SoupReadOBJ (MESHFILENAME OtherPlatform))
          (calls (main (matlib := TestDouble.lib) TestDouble.env_ok
                    [TestDouble.escape_pressed] TestDouble.junk))
  /\ value (main (matlib := TestDouble.lib) TestDouble.env_ok
              [TestDouble.escape_pressed] TestDouble.junk) = Some 0.
Proof.
  split; [vm_compute; reflexivity|]. split; [|vm_compute; reflexivity].
  vm_compute. intros Hin.
  repeat (destruct Hin as [Hin|Hin]; [discriminate Hin|]). exact Hin.
Qed.

Lemma mesh_is_generated_sphere_witness :
  In (SoupCreateSphere (Float64.of_int 1) 50)
     (calls (main (matlib := TestDouble.lib) TestDouble.env_ok
               [TestDouble.escape_pressed] TestDouble.junk)).
Proof.
  exact (proj1 (proj2 (mesh_is_generated_sphere (matlib := TestDouble.lib)
                         TestDouble.env_ok [TestDouble.escape_pressed] TestDouble.junk)
                      eq_refl eq_refl)).
Defined.

Lemma uniform_locations_queried_once_witness :
  List.filter is_GlGetUniformLocation
    (calls (main (matlib := TestDouble.lib) TestDouble.env_ok
              [TestDouble.space_held 2; TestDouble.escape_pressed] TestDouble.junk))
  = [ GlGetUniformLocation 1 "MV"; GlGetUniformLocation 1 "P";
      GlGetUniformLocation 1 "time"; GlGetUniformLocation 1 "tex" ]
  /\ programObject
       (final (main (matlib := TestDouble.lib) TestDouble.env_ok
                 [TestDouble.space_held 2; TestDouble.escape_pressed] TestDouble.junk))
     = 2
  /\ location_MV
       (final (main (matlib := TestDouble.lib) TestDouble.env_ok
                 [TestDouble.space_held 2; TestDouble.escape_pressed] TestDouble.junk))
     = 0.
Proof.
  destruct (uniform_locations_queried_once (matlib := TestDouble.lib) TestDouble.env_ok
              [TestDouble.space_held 2; TestDouble.escape_pressed] TestDouble.junk
              eq_refl eq_refl) as (Hq & _ & (Hmv & _) & _).
  split; [exact Hq|]. split; [vm_compute; reflexivity | exact Hmv].
Defined.

(** * Further properties of [setupViewport] and [main] *)

(** ** Rounding: sign and exponent of the result *)

Lemma shr_fexp_exponent m e l :
  e <= (shr_fexp Float32.prec Float32.emax m e l).2.
Proof.
  unfold shr_fexp, shr.
  destruct (fexp Float32.prec Float32.emax (Zdigits2 m + e) - e) as [|n|n];
    cbn [snd]; lia.
Qed.

Lemma binary_round_aux_number sx m e l :
  -149 <= e ->
  number_from e sx (binary_round_aux Float32.prec Float32.emax sx (Z.pos m) e l).
Proof.
  intros He. unfold binary_round_aux.
  destruct (shr_fexp_positive m e l He) as [H1 H2].
  pose proof (shr_fexp_exponent (Z.pos m) e l) as H2'.
  destruct (shr_fexp Float32.prec Float32.emax (Z.pos m) e l) as [mrs' e'].
  cbn [fst snd] in H1, H2, H2'.
  pose proof (round_nearest_even_positive _ (loc_of_shr_record mrs') H1) as H3.
  destruct (round_nearest_even (shr_m mrs') (loc_of_shr_record mrs')) as [|m2|m2];
    try lia.
  destruct (shr_fexp_positive m2 e' loc_Exact H2) as [H4 _].
  pose proof (shr_fexp_exponent (Z.pos m2) e' loc_Exact) as H5.
  destruct (shr_fexp Float32.prec Float32.emax (Z.pos m2) e' loc_Exact) as [mrs'' e''].
  cbn [fst snd] in H4, H5.
  destruct (shr_m mrs'') as [|m3|m3]; try lia.
  destruct (e'' <=? Float32.emax - Float32.prec); cbn [number_from];
    [split; [reflexivity | lia] | reflexivity].
Qed.

Lemma number_from_weaken lo lo' sx x :
  lo' <= lo -> number_from lo sx x -> number_from lo' sx x.
Proof. intros Hlo. destruct x; cbn [number_from]; try tauto. intros [? ?]. split; [assumption | lia]. Qed.

Lemma binary_round_number sx m :
  number_from (-23) sx (binary_round Float32.prec Float32.emax sx m 0).
Proof.
  unfold binary_round, shl_align. rewrite fexp32.
  pose proof (Pos2Z.is_pos (digits2_pos m)) as Hd.
  destruct (Z.max (Z.pos (digits2_pos m) + 0 - 24) (-149) - 0) as [|d|d] eqn:Ed.
  - apply (number_from_weaken 0); [lia | apply binary_round_aux_number; lia].
  - apply (number_from_weaken 0); [lia | apply binary_round_aux_number; lia].
  - set (ez := Z.max (Z.pos (digits2_pos m) + 0 - 24) (-149)) in *.
    apply (number_from_weaken ez); [lia | apply binary_round_aux_number; lia].
Qed.

(** [(float)i] of a non-zero [int] is a finite non-zero number of exponent
    at least -23, or an infinity, with the sign of [i]. *)
Lemma of_int_number i : i <> 0 -> number_from (-23) (i <? 0) (Float32.of_int i).
Proof.
  intros Hi. destruct i as [|m|m]; [congruence| |];
    unfold Float32.of_int, binary_normalize; apply binary_round_number.
Qed.

(** ** [setupViewport]: composition and degenerate window sizes *)

(** X1: two viewport updates in a row leave what the second alone would: the
    aspect entry is overwritten from [P[5]], which no update changes, so
    nothing of an earlier window size survives. *)
Theorem setupViewport_last_size_wins window1 window2 (P0 : mat4) :
  setupViewport window2 (setupViewport window1 P0).1 = setupViewport window2 P0.
Proof.
  cbv beta zeta delta [setupViewport aspect_dividend]. cbn [fst snd].
  f_equal.
  etransitivity; [apply list_insert_insert_eq|].
  f_equal. f_equal. f_equal.
  apply (list_lookup_total_insert_ne (A := GLfloat)). discriminate.
Qed.

(** X2: what [P[0]] becomes for a window that reports a zero size, [P[5]]
    being finite: a zero for a zero height alone, NaN for a 0 x 0 window,
    an infinity for a zero width alone. *)
Theorem setupViewport_degenerate_sizes window (P0 : mat4) s m e :
  length P0 = 16%nat ->
  P0 !! 5%nat = Some (S754_finite s m e) ->
  ((fi_size window).1 <> 0 -> (fi_size window).2 = 0 ->
     (setupViewport window P0).1 !! 0%nat
       = Some (S754_zero (xorb s ((fi_size window).1 <? 0))))
  /\ ((fi_size window).1 = 0 -> (fi_size window).2 = 0 ->
        (setupViewport window P0).1 !! 0%nat = Some S754_nan)
  /\ ((fi_size window).1 = 0 -> (fi_size window).2 <> 0 -> -126 <= e ->
        (setupViewport window P0).1 !! 0%nat
          = Some (S754_infinity (xorb s ((fi_size window).2 <? 0)))).
Proof.
  intros Hlen H5.
  destruct (setupViewport_lookup window P0 Hlen) as (H0 & _ & _).
  rewrite (list_lookup_total_correct _ _ _ H5) in H0.
  unfold mat4, GLfloat, Float32.t in *. rewrite H0. clear H0.
  split; [|split].
  - intros Hw Hh. rewrite Hh. f_equal.
    pose proof (of_int_number _ Hw) as Hn.
    change (Float32.mul (S754_finite s m e) (Float32.of_int 0)) with (S754_zero (xorb s false)).
    rewrite xorb_false_r.
    destruct (Float32.of_int (fi_size window).1) as [| sw | | sw mw ew];
      cbn [number_from] in Hn; try contradiction.
    + subst sw. reflexivity.
    + destruct Hn as [-> _]. reflexivity.
  - intros Hw Hh. rewrite Hw, Hh. reflexivity.
  - intros Hw Hh He. rewrite Hw. f_equal.
    pose proof (of_int_number _ Hh) as Hn.
    change (Float32.of_int 0) with (S754_zero false).
    destruct (Float32.of_int (fi_size window).2) as [| sh | | sh mh eh];
      cbn [number_from] in Hn; try contradiction.
    + subst sh. cbn. rewrite xorb_false_r. reflexivity.
    + destruct Hn as [-> Heh].
      unfold Float32.mul, SFmul.
      pose proof (binary_round_aux_number (xorb s ((fi_size window).2 <? 0))
                    (m * mh) (e + eh) loc_Exact ltac:(lia)) as Hp.
      destruct (binary_round_aux Float32.prec Float32.emax
                  (xorb s ((fi_size window).2 <? 0)) (Z.pos (m * mh)) (e + eh) loc_Exact)
        as [| sp | | sp mp ep]; cbn [number_from] in Hp; try contradiction.
      * subst sp. cbn. rewrite xorb_false_r. reflexivity.
      * destruct Hp as [-> _]. cbn. rewrite xorb_false_r. reflexivity.
Qed.

Lemma setupViewport_degenerate_sizes_witness :
  (setupViewport TestDouble.flattened P_init).1 !! 0%nat = Some (S754_zero false)
  /\ (setupViewport TestDouble.vanished P_init).1 !! 0%nat = Some S754_nan
  /\ (setupViewport TestDouble.minimised P_init).1 !! 0%nat = Some (S754_infinity false).
Proof.
  split; [|split].
  - apply (proj1 (setupViewport_degenerate_sizes TestDouble.flattened P_init
                    false 8388608 (-21) eq_refl eq_refl)); [discriminate | reflexivity].
  - apply (proj1 (proj2 (setupViewport_degenerate_sizes TestDouble.vanished P_init
                           false 8388608 (-21) eq_refl eq_refl))); reflexivity.
  - apply (proj2 (proj2 (setupViewport_degenerate_sizes TestDouble.minimised P_init
                           false 8388608 (-21) eq_refl eq_refl)));
      [reflexivity | discriminate | lia].
Defined.

(** ** The whole run: frames, resources and the projection *)

Lemma list_sum_ones {A} (l : list A) : list_sum (List.map (fun _ => 1%nat) l) = length l.
Proof.
  induction l as [|x l IH]; [reflexivity|].
  cbn [List.map length]. rewrite list_sum_cons, IH. reflexivity.
Qed.

Lemma frames_run_until_exit quiet window rest :
  existsb requests_exit quiet = false ->
  requests_exit window = true ->
  frames_run false (quiet ++ window :: rest) = quiet ++ [window].
Proof.
  intros Hquiet Hexit. induction quiet as [|w quiet IH]; cbn [app frames_run].
  - rewrite Hexit. destruct rest; reflexivity.
  - cbn [existsb] in Hquiet. apply orb_false_elim in Hquiet as [Hw Hq].
    rewrite Hw. f_equal. apply IH. exact Hq.
Qed.

Lemma setupViewport_twice window1 window2 (P0 : mat4) :
  (setupViewport window2 (setupViewport window1 P0).1).1 = (setupViewport window2 P0).1.
Proof.
  cbv beta zeta delta [setupViewport aspect_dividend]. cbn [fst snd].
  etransitivity; [apply list_insert_insert_eq|].
  f_equal. f_equal. f_equal.
  apply (list_lookup_total_insert_ne (A := GLfloat)). discriminate.
Qed.

Section MoreRunProperties.
Context {matlib : MatrixLib}.
Variable env : Env.

Ltac frame_cases window s :=
  rewrite ?frame_final, ?frame_calls; unfold count, space_down;
  destruct (location_tex s =? -1), (location_time s =? -1),
    (location_MV s =? -1), (location_P s =? -1),
    (fi_space window =? 0), (fi_escape window =? 0);
  reflexivity.

Lemma frame_count_SoupRender window s :
  count is_SoupRender (calls (frame env window s)) = 1%nat.
Proof. frame_cases window s. Qed.

Lemma frame_count_GlfwSwapBuffers window s :
  count is_GlfwSwapBuffers (calls (frame env window s)) = 1%nat.
Proof. frame_cases window s. Qed.

Lemma frame_count_GlfwWindowShouldClose window s :
  count is_GlfwWindowShouldClose (calls (frame env window s)) = 0%nat.
Proof. frame_cases window s. Qed.

Lemma frame_count_GlfwTerminate window s :
  count is_GlfwTerminate (calls (frame env window s)) = 0%nat.
Proof. frame_cases window s. Qed.

Lemma frame_count_GlfwDestroyWindow window s :
  count is_GlfwDestroyWindow (calls (frame env window s)) = 0%nat.
Proof. frame_cases window s. Qed.

Lemma frame_count_GlfwInit window s :
  count is_GlfwInit (calls (frame env window s)) = 0%nat.
Proof. frame_cases window s. Qed.

Lemma frame_deletes window s :
  List.filter is_GlDeleteProgram (calls (frame env window s))
  = if space_down window then [GlDeleteProgram (programObject s)] else [].
Proof. frame_cases window s. Qed.

Lemma frame_binds window s :
  List.filter is_GlUseProgram (calls (frame env window s))
  = [GlUseProgram (programObject s); GlUseProgram 0].
Proof. frame_cases window s. Qed.

Lemma frame_programObject window s :
  programObject (final (frame env window s))
  = if space_down window then fi_reload window else programObject s.
Proof. rewrite frame_final. unfold space_down. destruct (fi_space window =? 0); reflexivity. Qed.

Lemma render_loop_tests script : forall s,
  count is_GlfwWindowShouldClose (calls (render_loop env script s))
  = S (length (frames_run (should_close s) script)).
Proof.
  induction script as [|window script IH]; intros s; destruct (should_close s) eqn:E.
  - rewrite render_loop_closing by assumption. reflexivity.
  - rewrite render_loop_nil by assumption. reflexivity.
  - rewrite render_loop_closing by assumption. reflexivity.
  - rewrite render_loop_cons by assumption. rewrite calls_run.
    rewrite count_cons, count_app, frame_count_GlfwWindowShouldClose, IH.
    rewrite frame_should_close, E. reflexivity.
Qed.

(** X4: one draw and one buffer swap per executed frame, one loop test
    more than frames; the frame in which ESC or the close button is seen
    is still drawn, and it is the last one. *)
Theorem frames_rendered script s :
  env_glfwInit env = true -> env_window env = true ->
  count is_SoupRender (calls (main env script s)) = length (frames_run false script)
  /\ count is_GlfwSwapBuffers (calls (main env script s)) = length (frames_run false script)
  /\ count is_GlfwWindowShouldClose (calls (main env script s))
     = S (length (frames_run false script))
  /\ (forall quiet window rest,
        script = quiet ++ window :: rest ->
        existsb requests_exit quiet = false ->
        requests_exit window = true ->
        frames_run false script = quiet ++ [window]
        /\ value (main env script s) = Some 0).
Proof.
  intros E1 E2. rewrite main_running by assumption. rewrite calls_run, value_run.
  rewrite !count_app, !shutdown_count by reflexivity.
  rewrite (render_loop_count env is_SoupRender (fun _ => 1%nat) eq_refl
             (frame_count_SoupRender)).
  rewrite (render_loop_count env is_GlfwSwapBuffers (fun _ => 1%nat) eq_refl
             (frame_count_GlfwSwapBuffers)).
  rewrite render_loop_tests, !list_sum_ones.
  change (should_close (startup_locals env s)) with false.
  change (count is_SoupRender (startup_calls env)) with 0%nat.
  change (count is_GlfwSwapBuffers (startup_calls env)) with 0%nat.
  change (count is_GlfwWindowShouldClose (startup_calls env)) with 0%nat.
  split; [lia|]. split; [lia|]. split; [lia|].
  intros quiet window rest -> Hquiet Hexit. split.
  - apply frames_run_until_exit; assumption.
  - rewrite render_loop_value, existsb_app. cbn [existsb].
    rewrite Hexit, !orb_true_r. reflexivity.
Qed.

Lemma render_loop_programs script : forall s,
  exists deleted,
    List.filter is_GlDeleteProgram (calls (render_loop env script s))
      = List.map GlDeleteProgram deleted
    /\ created_programs (programObject s) (frames_run (should_close s) script)
       = deleted ++ [programObject (final (render_loop env script s))].
Proof.
  induction script as [|window script IH]; intros s; destruct (should_close s) eqn:E.
  - rewrite render_loop_closing by assumption. exists []. split; reflexivity.
  - rewrite render_loop_nil by assumption. exists []. split; reflexivity.
  - rewrite render_loop_closing by assumption. exists []. split; reflexivity.
  - rewrite render_loop_cons by assumption. rewrite calls_run, final_run.
    destruct (IH (final (frame env window s))) as (deleted & Hdel & Hcreated).
    rewrite frame_should_close, E, frame_programObject in Hcreated. cbn [orb] in Hcreated.
    cbn [List.filter is_GlDeleteProgram frames_run].
    rewrite List.filter_app, frame_deletes, Hdel.
    unfold created_programs in *. cbn [List.filter].
    destruct (space_down window).
    + exists (programObject s :: deleted). split; [reflexivity|].
      cbn [List.map app]. f_equal. exact Hcreated.
    + exists deleted. split; [reflexivity | exact Hcreated].
Qed.

(** X5: the shader programs created during a run are, in order, the ones
    deleted, followed by the one that is the program object at the end:
    every reload deletes the program it replaces, and the last program is
    never deleted -- not at exit either. *)
Theorem program_lifecycle script s :
  env_glfwInit env = true -> env_window env = true ->
  exists deleted,
    List.filter is_GlDeleteProgram (calls (main env script s))
      = List.map GlDeleteProgram deleted
    /\ created_programs (env_createShader env) (frames_run false script)
       = deleted ++ [programObject (final (main env script s))]
    /\ (NoDup (created_programs (env_createShader env) (frames_run false script)) ->
        ~ In (GlDeleteProgram (programObject (final (main env script s))))
             (calls (main env script s))).
Proof.
  intros E1 E2. rewrite main_running by assumption. rewrite calls_run, final_run.
  destruct (render_loop_programs script (startup_locals env s))
    as (deleted & Hdel & Hcreated).
  change (should_close (startup_locals env s)) with false in Hcreated.
  change (programObject (startup_locals env s)) with (env_createShader env) in Hcreated.
  assert (Hfilter :
    List.filter is_GlDeleteProgram
      (startup_calls env ++ calls (render_loop env script (startup_locals env s))
       ++ (if value (render_loop env script (startup_locals env s))
           then [GlfwDestroyWindow; GlfwTerminate] else []))
    = List.map GlDeleteProgram deleted).
  { rewrite !List.filter_app, Hdel.
    destruct (value (render_loop env script (startup_locals env s))); cbn [List.filter is_GlDeleteProgram]; rewrite app_nil_r; reflexivity. }
  exists deleted. split; [exact Hfilter|]. split; [exact Hcreated|].
  intros Hnodup Hin. rewrite Hcreated in Hnodup.
  apply NoDup_app in Hnodup as (_ & Hsep & _).
  assert (Hin' : In (GlDeleteProgram
                       (programObject (final (render_loop env script (startup_locals env s)))))
                    (List.map GlDeleteProgram deleted)).
  { rewrite <- Hfilter. apply List.filter_In. split; [exact Hin | reflexivity]. }
  apply List.in_map_iff in Hin' as (p & Hp & Hpin).
  injection Hp as ->.
  apply (Hsep _ (proj2 (list_elem_of_In _ _) Hpin)). left.
Qed.

Lemma render_loop_binds script : forall s,
  List.filter is_GlUseProgram (calls (render_loop env script s))
  = flat_map (fun p => [GlUseProgram p; GlUseProgram 0])
      (bound_programs (programObject s) (frames_run (should_close s) script)).
Proof.
  induction script as [|window script IH]; intros s; destruct (should_close s) eqn:E.
  - rewrite render_loop_closing by assumption. reflexivity.
  - rewrite render_loop_nil by assumption. reflexivity.
  - rewrite render_loop_closing by assumption. reflexivity.
  - rewrite render_loop_cons by assumption. rewrite calls_run.
    cbn [List.filter is_GlUseProgram frames_run bound_programs flat_map].
    rewrite List.filter_app, frame_binds, IH.
    rewrite frame_should_close, E, frame_programObject. reflexivity.
Qed.

Lemma bound_programs_created p frames :
  Forall (fun q => In q (created_programs p frames)) (bound_programs p frames).
Proof.
  revert p. induction frames as [|window frames IH]; intros p; cbn [bound_programs].
  - constructor.
  - constructor; [left; reflexivity|].
    unfold created_programs in *. cbn [List.filter].
    destruct (space_down window).
    + eapply List.Forall_impl; [|apply IH]. intros q Hq. right. exact Hq.
    + exact (IH p).
Qed.

(** X6: every executed frame binds the program object of that moment --
    the handle of the latest [createShader] -- and unbinds it again; no
    other [glUseProgram] call is made.  A frame never binds the handle its
    own reload creates: that one is bound from the next frame on. *)
Theorem programs_bound script s :
  env_glfwInit env = true -> env_window env = true ->
  List.filter is_GlUseProgram (calls (main env script s))
    = flat_map (fun p => [GlUseProgram p; GlUseProgram 0])
        (bound_programs (env_createShader env) (frames_run false script))
  /\ length (bound_programs (env_createShader env) (frames_run false script))
     = length (frames_run false script)
  /\ Forall (fun q => In q (created_programs (env_createShader env) (frames_run false script)))
       (bound_programs (env_createShader env) (frames_run false script)).
Proof.
  intros E1 E2. rewrite main_running by assumption. rewrite calls_run.
  split; [|split].
  - rewrite !List.filter_app, render_loop_binds.
    destruct (value (render_loop env script (startup_locals env s))); cbn [List.filter is_GlUseProgram]; rewrite app_nil_r; reflexivity.
  - generalize (env_createShader env). induction (frames_run false script) as [|w l IH];
      intros p; cbn [bound_programs length]; [reflexivity | rewrite IH; reflexivity].
  - apply bound_programs_created.
Qed.

(** X7: [glfwInit] is called once in every run.  [glfwTerminate] is called
    exactly once when [main] returns after a successful [glfwInit], and
    not at all otherwise; [glfwDestroyWindow] exactly once when [main]
    returns 0, and not at all otherwise. *)
Theorem cleanup_calls script s :
  count is_GlfwInit (calls (main env script s)) = 1%nat
  /\ count is_GlfwTerminate (calls (main env script s))
     = match value (main env script s) with
       | Some _ => if env_glfwInit env then 1%nat else 0%nat
       | None => 0%nat
       end
  /\ count is_GlfwDestroyWindow (calls (main env script s))
     = match value (main env script s) with
       | Some 0 => 1%nat
       | _ => 0%nat
       end.
Proof.
  destruct (env_glfwInit env) eqn:E1; [destruct (env_window env) eqn:E2|].
  - rewrite main_running by assumption. rewrite calls_run, value_run.
    rewrite !count_app.
    rewrite (render_loop_count env is_GlfwInit (fun _ => 0%nat) eq_refl
               (frame_count_GlfwInit)).
    rewrite (render_loop_count env is_GlfwTerminate (fun _ => 0%nat) eq_refl
               (frame_count_GlfwTerminate)).
    rewrite (render_loop_count env is_GlfwDestroyWindow (fun _ => 0%nat) eq_refl
               (frame_count_GlfwDestroyWindow)).
    rewrite !list_sum_zero.
    destruct (value (render_loop env script (startup_locals env s))); repeat split; reflexivity.
  - rewrite main_no_window by assumption. repeat split; reflexivity.
  - rewrite main_no_glfw by assumption. repeat split; reflexivity.
Qed.

Lemma frame_agree window s1 s2 :
  agree s1 s2 ->
  calls (frame env window s1) = calls (frame env window s2)
  /\ agree (final (frame env window s1)) (final (frame env window s2)).
Proof.
  intros (Hp & Ht & Hmv & Hpr & Htex & HP & Hc).
  rewrite !frame_calls, !frame_final. unfold agree.
  cbn [programObject location_time location_MV location_P location_tex P should_close].
  rewrite Hp, Ht, Hmv, Hpr, Htex, HP, Hc. repeat split; reflexivity.
Qed.

Lemma render_loop_agree script : forall s1 s2,
  agree s1 s2 ->
  value (render_loop env script s1) = value (render_loop env script s2)
  /\ calls (render_loop env script s1) = calls (render_loop env script s2).
Proof.
  induction script as [|window script IH]; intros s1 s2 Hagree;
    pose proof Hagree as (_ & _ & _ & _ & _ & _ & Hc);
    destruct (should_close s1) eqn:E1; symmetry in Hc.
  - rewrite !render_loop_closing by assumption. split; reflexivity.
  - rewrite !render_loop_nil by assumption. split; reflexivity.
  - rewrite !render_loop_closing by assumption. split; reflexivity.
  - rewrite !render_loop_cons by assumption. rewrite !value_run, !calls_run.
    destruct (frame_agree window s1 s2 Hagree) as (Hcalls & Hnext).
    destruct (IH _ _ Hnext) as (Hv & Hl).
    rewrite Hcalls, Hv, Hl. split; reflexivity.
Qed.

(** X8: what [main] returns and the calls it makes do not depend on the
    indeterminate initial contents of its locals: [time], [MV], [R1],
    [R2], the locations and the program object are written before they
    are read. *)
Theorem main_ignores_initial_locals script s1 s2 :
  value (main env script s1) = value (main env script s2)
  /\ calls (main env script s1) = calls (main env script s2).
Proof.
  destruct (env_glfwInit env) eqn:E1; [destruct (env_window env) eqn:E2|].
  - rewrite !main_running by assumption. rewrite !value_run, !calls_run.
    destruct (render_loop_agree script (startup_locals env s1) (startup_locals env s2))
      as (Hv & Hl); [repeat split; reflexivity|].
    rewrite Hv, Hl. split; reflexivity.
  - rewrite !main_no_window by assumption. split; reflexivity.
  - rewrite !main_no_glfw by assumption. split; reflexivity.
Qed.

Lemma render_loop_projection script : forall s,
  P (final (render_loop env script s))
  = match last (frames_run (should_close s) script) with
    | Some window => (setupViewport window (P s)).1
    | None => P s
    end.
Proof.
  induction script as [|window script IH]; intros s; destruct (should_close s) eqn:E.
  - rewrite render_loop_closing by assumption. reflexivity.
  - rewrite render_loop_nil by assumption. reflexivity.
  - rewrite render_loop_closing by assumption. reflexivity.
  - rewrite render_loop_cons by assumption. rewrite final_run, IH.
    rewrite frame_should_close, E, frame_projection. cbn [orb frames_run].
    rewrite last_cons.
    destruct (last (frames_run (requests_exit window) script)) as [window'|].
    + apply setupViewport_twice.
    + reflexivity.
Qed.

(** X3: the projection matrix at the end of a run is the initial matrix
    with [P[0]] computed from the size the window had in the last executed
    frame -- 4.0*height/width in binary32 -- whatever sizes came before;
    it is the initial matrix itself when no frame ran. *)
Theorem projection_follows_last_frame script s :
  env_glfwInit env = true -> env_window env = true ->
  P (final (main env script s))
  = match last (frames_run false script) with
    | Some window =>
        <[0%nat := Float32.div (Float32.mul (Float32.of_int 4)
                                            (Float32.of_int (fi_size window).2))
                               (Float32.of_int (fi_size window).1)]> P_init
    | None => P_init
    end.
Proof.
  intros E1 E2. rewrite main_running by assumption. rewrite final_run.
  rewrite render_loop_projection.
  change (should_close (startup_locals env s)) with false.
  destruct (last (frames_run false script)); reflexivity.
Qed.
End MoreRunProperties.

(** ** The further properties on concrete runs *)

Lemma frames_rendered_witness :
  count is_SoupRender
    (calls (main (matlib := TestDouble.lib) TestDouble.env_ok
              [TestDouble.idle; TestDouble.close_clicked; TestDouble.idle] TestDouble.junk))
  = length (frames_run false [TestDouble.idle; TestDouble.close_clicked; TestDouble.idle])
  /\ frames_run false [TestDouble.idle; TestDouble.close_clicked; TestDouble.idle]
     = [TestDouble.idle] ++ [TestDouble.close_clicked]
  /\ value (main (matlib := TestDouble.lib) TestDouble.env_ok
              [TestDouble.idle; TestDouble.close_clicked; TestDouble.idle] TestDouble.junk)
     = Some 0.
Proof.
  destruct (frames_rendered (matlib := TestDouble.lib) TestDouble.env_ok
              [TestDouble.idle; TestDouble.close_clicked; TestDouble.idle] TestDouble.junk
              eq_refl eq_refl) as (Hdraw & _ & _ & Hlast).
  split; [exact Hdraw|].
  exact (Hlast [TestDouble.idle] TestDouble.close_clicked [TestDouble.idle]
           eq_refl eq_refl eq_refl).
Defined.

Lemma program_lifecycle_witness :
  ~ In (GlDeleteProgram
          (programObject
             (final (main (matlib := TestDouble.lib) TestDouble.env_ok
                       [TestDouble.space_held 2; TestDouble.idle; TestDouble.space_held 3;
                        TestDouble.escape_pressed] TestDouble.junk))))
       (calls (main (matlib := TestDouble.lib) TestDouble.env_ok
                 [TestDouble.space_held 2; TestDouble.idle; TestDouble.space_held 3;
                  TestDouble.escape_pressed] TestDouble.junk)).
Proof.
  destruct (program_lifecycle (matlib := TestDouble.lib) TestDouble.env_ok
              [TestDouble.space_held 2; TestDouble.idle; TestDouble.space_held 3;
               TestDouble.escape_pressed] TestDouble.junk eq_refl eq_refl)
    as (deleted & _ & _ & Hlive).
  apply Hlive.
  change (NoDup [1; 2; 3]).
  repeat (apply NoDup_cons_2; [rewrite ?elem_of_cons, elem_of_nil; intros Hin;
                               repeat (destruct Hin as [Hin|Hin]; [discriminate Hin|]);
                               exact Hin|]).
  apply NoDup_nil_2.
Defined.

Lemma programs_bound_witness :
  List.filter is_GlUseProgram
    (calls (main (matlib := TestDouble.lib) TestDouble.env_ok
              [TestDouble.space_held 2; TestDouble.idle; TestDouble.escape_pressed]
              TestDouble.junk))
  = [ GlUseProgram 1; GlUseProgram 0; GlUseProgram 2; GlUseProgram 0;
      GlUseProgram 2; GlUseProgram 0 ].
Proof.
  exact (proj1 (programs_bound (matlib := TestDouble.lib) TestDouble.env_ok
                  [TestDouble.space_held 2; TestDouble.idle; TestDouble.escape_pressed]
                  TestDouble.junk eq_refl eq_refl)).
Defined.

Lemma projection_follows_last_frame_witness :
  P (final (main (matlib := TestDouble.lib) TestDouble.env_ok
              [TestDouble.idle; TestDouble.minimised; TestDouble.close_clicked]
              TestDouble.junk))
  = <[0%nat := Float32.div (Float32.mul (Float32.of_int 4) (Float32.of_int 480))
                           (Float32.of_int 640)]> P_init.
Proof.
  exact (projection_follows_last_frame (matlib := TestDouble.lib) TestDouble.env_ok
           [TestDouble.idle; TestDouble.minimised; TestDouble.close_clicked]
           TestDouble.junk eq_refl eq_refl).
Defined.

(** Two runs from different indeterminate locals, and the clean-up of a
    run whose window could not be opened. *)
Example initial_locals_do_not_matter :
  calls (main (matlib := TestDouble.lib) TestDouble.env_ok
           [TestDouble.space_held 2; TestDouble.escape_pressed] TestDouble.junk)
  = calls (main (matlib := TestDouble.lib) TestDouble.env_ok
             [TestDouble.space_held 2; TestDouble.escape_pressed] TestDouble.junk').
Proof. vm_compute. reflexivity. Qed.

Example cleanup_without_window :
  count is_GlfwTerminate
    (calls (main (matlib := TestDouble.lib) TestDouble.env_no_window [] TestDouble.junk))
  = 1%nat
  /\ count is_GlfwDestroyWindow
       (calls (main (matlib := TestDouble.lib) TestDouble.env_no_window [] TestDouble.junk))
     = 0%nat
  /\ count is_GlfwTerminate
       (calls (main (matlib := TestDouble.lib) TestDouble.env_no_glfw [] TestDouble.junk))
     = 0%nat.
Proof. vm_compute. repeat split; reflexivity. Qed.

(** ** The exit key *)

Lemma frames_run_closing script : frames_run true script = [].
Proof. destruct script; reflexivity. Qed.

Section ExitKey.
Context {matlib : MatrixLib}.
Variable env : Env.

Lemma frame_count_GlfwSetWindowShouldClose window s :
  count is_GlfwSetWindowShouldClose (calls (frame env window s))
  = if fi_escape window =? 0 then 0%nat else 1%nat.
Proof.
  rewrite frame_calls. unfold count.
  destruct (location_tex s =? -1), (location_time s =? -1),
    (location_MV s =? -1), (location_P s =? -1),
    (fi_space window =? 0), (fi_escape window =? 0);
    reflexivity.
Qed.

Lemma render_loop_exit_requests script : forall s,
  count is_GlfwSetWindowShouldClose (calls (render_loop env script s))
  = match last (frames_run (should_close s) script) with
    | Some window => if fi_escape window =? 0 then 0%nat else 1%nat
    | None => 0%nat
    end.
Proof.
  induction script as [|window script IH]; intros s; destruct (should_close s) eqn:E.
  - rewrite render_loop_closing by assumption. reflexivity.
  - rewrite render_loop_nil by assumption. reflexivity.
  - rewrite render_loop_closing by assumption. reflexivity.
  - rewrite render_loop_cons by assumption. rewrite calls_run.
    rewrite count_cons, count_app, frame_count_GlfwSetWindowShouldClose, IH.
    rewrite frame_should_close, E. cbn [orb frames_run is_GlfwSetWindowShouldClose].
    rewrite last_cons. unfold requests_exit.
    destruct (fi_escape window =? 0) eqn:Hesc; cbn [negb orb].
    + destruct (last (frames_run (fi_close_request window) script));
        [reflexivity | rewrite Hesc; reflexivity].
    + rewrite frames_run_closing. cbn [last]. rewrite Hesc. reflexivity.
Qed.

(** X9: unlike the reload, the exit request cannot repeat:
    [glfwSetWindowShouldClose] is called at most once in a run, and only
    in the last executed frame, when ESC is down in it. *)
Theorem exit_requested_at_most_once script s :
  env_glfwInit env = true -> env_window env = true ->
  count is_GlfwSetWindowShouldClose (calls (main env script s))
  = match last (frames_run false script) with
    | Some window => if fi_escape window =? 0 then 0%nat else 1%nat
    | None => 0%nat
    end
  /\ (count is_GlfwSetWindowShouldClose (calls (main env script s)) <= 1)%nat.
Proof.
  intros E1 E2. rewrite main_running by assumption. rewrite calls_run.
  rewrite !count_app, shutdown_count by reflexivity.
  rewrite render_loop_exit_requests.
  change (should_close (startup_locals env s)) with false.
  change (count is_GlfwSetWindowShouldClose (startup_calls env)) with 0%nat.
  split.
  - lia.
  - destruct (last (frames_run false script)) as [window|]; [|lia].
    destruct (fi_escape window =? 0); lia.
Qed.
End ExitKey.

Lemma exit_requested_at_most_once_witness :
  (count is_GlfwSetWindowShouldClose
     (calls (main (matlib := TestDouble.lib) TestDouble.env_ok
               [TestDouble.idle; TestDouble.escape_pressed; TestDouble.escape_pressed]
               TestDouble.junk)) <= 1)%nat.
Proof.
  exact (proj2 (exit_requested_at_most_once (matlib := TestDouble.lib) TestDouble.env_ok
                  [TestDouble.idle; TestDouble.escape_pressed; TestDouble.escape_pressed]
                  TestDouble.junk eq_refl eq_refl)).
Defined.
